(** * Seal-monitoring detection dataset pipeline
    ([Models/Seals/dataset/detection.py]): transforms, samplers and the
    [DetectionDataset] facade, embedded shallowly.

    Numbers.  The Python code mixes [int] and [float]; the embedding is
    generic in a number type [T] carrying the operations the code uses
    ([PyNum], and [PyMath] for [math.exp], [math.log], [math.sqrt]).  It is
    instantiated with exact rationals [Q] (executable) and with the reals
    [R]; the rounding of binary floating point is modelled where the
    loaders divide two [int]s ([binary64]) and not elsewhere.

    Effects.  Exceptions are an explicit [result]; the state of the
    pseudo-random generators is threaded through the randomised transforms;
    the [images] dict of a dataset is a [gmap] from ids to records. *)

From Stdlib Require Import ZArith QArith Qround Qabs Reals Lia Lra List.
From Stdlib Require Lqa Qcanon.
From stdpp Require Import base option list strings gmap.

Set Default Proof Using "Type".

(* ------------------------------------------------------------------ *)
(** ** Exceptions *)

Inductive exn : Type :=
| ZeroDivisionError
| ValueError
| TypeError
| IndexError
| OverflowError
| AssertionError (msg : string).

Inductive result (A : Type) : Type :=
| Ok (a : A)
| Raise (e : exn).
Arguments Ok {A} a.
Arguments Raise {A} e.

Definition rbind {A B} (r : result A) (k : A -> result B) : result B :=
  match r with
  | Ok a => k a
  | Raise e => Raise e
  end.

Notation "'let!' x ':=' e 'in' k" := (rbind e (fun x => k))
  (at level 10, x name, e at level 100, k at level 200).

(** [assert cond, msg] *)
Definition py_assert (cond : bool) (msg : string) : result unit :=
  if cond then Ok tt else Raise (AssertionError msg).

(* ------------------------------------------------------------------ *)
(** ** Numbers *)

Class PyNum (T : Type) : Type := {
  of_int : Z -> T;
  nadd : T -> T -> T;
  nsub : T -> T -> T;
  nmul : T -> T -> T;
  ndiv : T -> T -> T;      (* quotient, used with a non-zero divisor only *)
  nltb : T -> T -> bool;   (* [a < b] *)
  nzero : T -> bool        (* [a == 0] *)
}.

Class PyMath (T : Type) : Type := {
  m_exp : T -> T;
  m_log : T -> T;          (* used with a positive argument only *)
  m_sqrt : T -> T          (* used with a non-negative argument only *)
}.

#[export] Instance Q_PyNum : PyNum Q := {
  of_int := inject_Z;
  nadd := Qplus;
  nsub := Qminus;
  nmul := Qmult;
  ndiv := Qdiv;
  nltb := fun a b => negb (Qle_bool b a);
  nzero := fun a => Qeq_bool a (0 # 1)
}.

#[export] Instance R_PyNum : PyNum R := {
  of_int := IZR;
  nadd := Rplus;
  nsub := Rminus;
  nmul := Rmult;
  ndiv := Rdiv;
  nltb := fun a b => if Rlt_dec a b then true else false;
  nzero := fun a => if Req_dec_T a 0%R then true else false
}.

#[export] Instance R_PyMath : PyMath R := {
  m_exp := exp;
  m_log := ln;
  m_sqrt := sqrt
}.

Section Numbers.
Context {T : Type} `{PyNum T}.

(** [a / b]: true division, [ZeroDivisionError] on a zero divisor. *)
Definition truediv (a b : T) : result T :=
  if nzero b then Raise ZeroDivisionError else Ok (ndiv a b).

(** The builtin [max(a, b)]: the second argument wins only when it is
    strictly greater. *)
Definition py_max (a b : T) : T := if nltb a b then b else a.

(** [math.log(x)]: [ValueError] outside the positive numbers. *)
Definition math_log `{PyMath T} (x : T) : result T :=
  if nltb (of_int 0) x then Ok (m_log x) else Raise ValueError.

(** [math.sqrt(x)]: [ValueError] on a negative number. *)
Definition math_sqrt `{PyMath T} (x : T) : result T :=
  if nltb x (of_int 0) then Raise ValueError else Ok (m_sqrt x).
End Numbers.

(* ------------------------------------------------------------------ *)
(** ** Records: boxes, targets, images, samples *)

(** One row of a [bbox] tensor: [xmin, ymin, xmax, ymax]. *)
Record Box (T : Type) : Type := mkBox { x1 : T; y1 : T; x2 : T; y2 : T }.
Arguments mkBox {T} _ _ _ _.
Arguments x1 {T} _.
Arguments y1 {T} _.
Arguments x2 {T} _.
Arguments y2 {T} _.

(** The target table: one [bbox] row and one [label] per instance. *)
Record Target (T : Type) : Type := mkTarget {
  bbox : list (Box T);
  label : list Z
}.
Arguments mkTarget {T} _ _.
Arguments bbox {T} _.
Arguments label {T} _.

(** [empty_target] *)
Definition empty_target {T} : Target T := mkTarget [] [].

(** [target._extend(bbox=b)] *)
Definition target_extend_bbox {T} (t : Target T) (b : list (Box T)) : Target T :=
  mkTarget b (label t).

(** An image tensor of shape [(height, width, channels)]; the pixel
    payload is opaque. *)
Record Image (Pix : Type) : Type := mkImage {
  height : Z;
  width : Z;
  channels : Z;
  pixels : Pix
}.
Arguments mkImage {Pix} _ _ _ _.
Arguments height {Pix} _.
Arguments width {Pix} _.
Arguments channels {Pix} _.
Arguments pixels {Pix} _.

(** A record of the dataset's [images] dict. *)
Record ImageInfo (T : Type) : Type := mkInfo {
  info_id : string;
  info_file : string;
  category : string;
  evaluated : option Z;
  info_target : Target T
}.
Arguments mkInfo {T} _ _ _ _ _.
Arguments info_id {T} _.
Arguments info_file {T} _.
Arguments category {T} _.
Arguments evaluated {T} _.
Arguments info_target {T} _.

(** A loaded record [d], as the transforms receive it: the fields of the
    dataset record together with [image] and [image_size]. *)
Record Sample (T Pix : Type) : Type := mkSample {
  d_id : string;
  d_file : string;
  image : Image Pix;
  image_size : Z * Z;
  target : Target T
}.
Arguments mkSample {T Pix} _ _ _ _ _.
Arguments d_id {T Pix} _.
Arguments d_file {T Pix} _.
Arguments image {T Pix} _.
Arguments image_size {T Pix} _.
Arguments target {T Pix} _.

(** [d._extend(image=img, target=t)] *)
Definition extend_image_target {T Pix} (d : Sample T Pix)
    (img : Image Pix) (t : Target T) : Sample T Pix :=
  mkSample (d_id d) (d_file d) img (image_size d) t.

(** [d._extend(target=t)] *)
Definition extend_target {T Pix} (d : Sample T Pix) (t : Target T) : Sample T Pix :=
  mkSample (d_id d) (d_file d) (image d) (image_size d) t.

(** Instance count of a target ([len(target.label)], [label.size(0)]). *)
Definition num_instances {T} (t : Target T) : nat := length (label t).

(* ------------------------------------------------------------------ *)
(** ** Box geometry ([Models.Seals.detection.box]) *)

Section BoxGeometry.
Context {T : Type} `{PyNum T}.

(** The literal [0.5]. *)
Definition half : T := ndiv (of_int 1) (of_int 2).

(** [-x] *)
Definition nneg (x : T) : T := nsub (of_int 0) x.

(** Modelled from the spec: [box.transform(bbox, translate, scale)] of the
    box-geometry helper, whose source is missing: every corner is
    translated by the offset and then scaled per axis; one output row per
    input row. *)
Definition box_transform (b : list (Box T)) (offset scale : T * T) : list (Box T) :=
  map (fun r =>
         mkBox (nmul (nadd (x1 r) (fst offset)) (fst scale))
               (nmul (nadd (y1 r) (snd offset)) (snd scale))
               (nmul (nadd (x2 r) (fst offset)) (fst scale))
               (nmul (nadd (y2 r) (snd offset)) (snd scale))) b.

(** Modelled from the spec: [box.transpose] of the missing helper swaps
    the two axes of every row. *)
Definition box_transpose (b : list (Box T)) : list (Box T) :=
  map (fun r => mkBox (y1 r) (x1 r) (y2 r) (x2 r)) b.

(** Modelled from the spec: [box.flip_horizontal(bbox, width)] of the
    missing helper mirrors the x coordinates of every row in the width. *)
Definition box_flip_horizontal (b : list (Box T)) (w : T) : list (Box T) :=
  map (fun r => mkBox (nsub w (x2 r)) (y1 r) (nsub w (x1 r)) (y2 r)) b.

(** Modelled from the spec: [box.flip_vertical(bbox, height)] of the
    missing helper mirrors the y coordinates of every row in the height. *)
Definition box_flip_vertical (b : list (Box T)) (h : T) : list (Box T) :=
  map (fun r => mkBox (x1 r) (nsub h (y2 r)) (x2 r) (nsub h (y1 r))) b.

(** Modelled from the spec: [box.split(box.extents_form(bbox))] of the
    missing helper: the centre and the size of every row. *)
Definition box_extents (b : list (Box T)) : list ((T * T) * (T * T)) :=
  map (fun r =>
         ((nmul (nadd (x1 r) (x2 r)) half, nmul (nadd (y1 r) (y2 r)) half),
          (nsub (x2 r) (x1 r), nsub (y2 r) (y1 r)))) b.

(** Modelled from the spec: [box.point_form(torch.cat([centre, size], 1))]
    of the missing helper: back from centre and size to corners. *)
Definition box_point_form (e : list ((T * T) * (T * T))) : list (Box T) :=
  map (fun '((cx, cy), (sw, sh)) =>
         mkBox (nsub cx (nmul sw half)) (nsub cy (nmul sh half))
               (nadd cx (nmul sw half)) (nadd cy (nmul sh half))) e.

(** [as_tuple(bbox)] *)
Definition as_tuple (r : Box T) : (T * T) * (T * T) :=
  ((x1 r, y1 r), (x2 r, y2 r)).
End BoxGeometry.

(* ------------------------------------------------------------------ *)
(** ** External collaborators *)

(** The pseudo-random generators ([random], [torch.randn]) over an opaque
    generator state [Rng]. *)
Class PyRandom (T Rng : Type) : Type := {
  random : Rng -> T * Rng;              (* [random.random()] *)
  randint : Z -> Z -> Rng -> Z * Rng;   (* [random.randint(a, b)] *)
  normal : Rng -> T * Rng               (* one entry of [torch.randn] *)
}.

(** The two box functions that are used through their results only. *)
Class BoxLib (T : Type) : Type := {
  filter_hidden : Target T -> T * T -> Z * Z -> T -> Target T;
  iou_matched : Box T -> Box T -> T    (* one entry of [iou_matrix_matched] *)
}.

(** The image primitives of [libs.tools.image] ([transforms], [cv]). *)
Class ImageLib (T Pix Rng : Type) : Type := {
  Affine : Type;
  imread_color : string -> Image Pix;
  resize_scale : Image Pix -> T -> Image Pix;
  px_resize_to : Image Pix -> Z * Z -> Pix;
  px_transpose : Image Pix -> Pix;
  cv_flip_vertical : Image Pix -> Image Pix;
  cv_flip_horizontal : Image Pix -> Image Pix;
  crop_padded : Z * Z -> T * T -> T -> Rng -> (T * T) * Rng;
  crop_target : Z * Z -> T * T -> (T * T) * (T * T) -> Rng -> (T * T) * Rng;
  make_affine : Z * Z -> T * T -> T * T -> Affine;
  warp_affine : Image Pix -> Affine -> Z * Z -> Image Pix
}.

(** The detection encoder: an opaque object with [encode(image, target)]. *)
Class Encoder (T Pix Enc : Type) : Type := {
  encode : Image Pix -> Target T -> Enc
}.

(* ------------------------------------------------------------------ *)
(** ** Randomised computations: generator state and exceptions *)

Definition M (Rng A : Type) : Type := Rng -> result (A * Rng).

Definition mret {Rng A} (a : A) : M Rng A := fun g => Ok (a, g).

Definition mbind_ {Rng A B} (m : M Rng A) (k : A -> M Rng B) : M Rng B :=
  fun g => match m g with
           | Ok (a, g') => k a g'
           | Raise e => Raise e
           end.

(** A computation that may raise but draws nothing. *)
Definition lift_result {Rng A} (r : result A) : M Rng A :=
  fun g => match r with Ok a => Ok (a, g) | Raise e => Raise e end.

(** A draw, which never raises. *)
Definition lift_draw {Rng A} (f : Rng -> A * Rng) : M Rng A :=
  fun g => Ok (f g).

Notation "'do!' x ':=' e 'in' k" := (mbind_ e (fun x => k))
  (at level 10, x name, e at level 100, k at level 200).
Notation "'do!' ' p ':=' e 'in' k" := (mbind_ e (fun x => match x with p => k end))
  (at level 10, p pattern, e at level 100, k at level 200).

(* ------------------------------------------------------------------ *)
(** ** Transform combinators *)

Section Transforms.
Context {T Pix Rng : Type} `{PyNum T} `{PyMath T}
        `{PyRandom T Rng} `{BoxLib T} `{ImageLib T Pix Rng}.

(** [load_image(image)] *)
Definition load_image (i : ImageInfo T) : Sample T Pix :=
  let img := imread_color (info_file i) in
  mkSample (info_id i) (info_file i) img (width img, height img) (info_target i).

(** [scale(scale)] *)
Definition scale (s : T) (d : Sample T Pix) : Sample T Pix :=
  let b := box_transform (bbox (target d)) (of_int 0, of_int 0) (s, s) in
  extend_image_target d (resize_scale (image d) s)
                      (target_extend_bbox (target d) b).

(** The factor [max(size / h, size / w)] that [resize] computes. *)
Definition resize_factor (size : T) (d : Sample T Pix) : result T :=
  let h := height (image d) in
  let w := width (image d) in
  let! a := truediv size (of_int h) in
  let! b := truediv size (of_int w) in
  Ok (py_max a b).

(** [resize(size)] *)
Definition resize (size : T) (d : Sample T Pix) : result (Sample T Pix) :=
  let! s := resize_factor size d in
  let b := box_transform (bbox (target d)) (of_int 0, of_int 0) (s, s) in
  Ok (extend_image_target d (resize_scale (image d) s)
                          (target_extend_bbox (target d) b)).

(** [random.uniform(a, b)], that is [a + (b - a) * random()]. *)
Definition uniform (a b : T) : Rng -> T * Rng :=
  fun g => let '(r, g') := random g in (nadd a (nmul (nsub b a) r), g').

(** [random_log(l, u)] *)
Definition random_log (l u : T) : M Rng T :=
  do! ll := lift_result (math_log l) in
  do! lu := lift_result (math_log u) in
  do! v := lift_draw (uniform ll lu) in
  mret (m_exp v).

(** [image.transpose(0, 1)] on the tensor. *)
Definition tensor_transpose (img : Image Pix) : Image Pix :=
  mkImage (width img) (height img) (channels img) (px_transpose img).

(** Modelled from the spec: [transforms.resize_to(image, dest_size)] of the
    missing image primitives, with [dest_size = (w, h)]: the result has
    exactly the requested dimensions. *)
Definition transforms_resize_to (img : Image Pix) (dest_size : Z * Z) : Image Pix :=
  mkImage (snd dest_size) (fst dest_size) (channels img) (px_resize_to img dest_size).

(** [random_flips(horizontal, vertical, transposes)] *)
Definition random_flips (horizontal vertical transposes : bool)
    (d : Sample T Pix) : M Rng (Sample T Pix) :=
  let img := image d in
  let b := bbox (target d) in
  do! c1 := (if transposes
             then do! u := lift_draw (uniform (of_int 0) (of_int 1)) in
                  mret (nltb half u)
             else mret false) in
  let '(img, b) := if (c1 : bool)
                   then (tensor_transpose img, box_transpose b)
                   else (img, b) in
  do! c2 := (if vertical
             then do! u := lift_draw (uniform (of_int 0) (of_int 1)) in
                  mret (nltb half u)
             else mret false) in
  let '(img, b) := if (c2 : bool)
                   then (let img' := cv_flip_vertical img in
                         (img', box_flip_vertical b (of_int (height img'))))
                   else (img, b) in
  do! c3 := (if horizontal
             then do! u := lift_draw (uniform (of_int 0) (of_int 1)) in
                  mret (nltb half u)
             else mret false) in
  let '(img, b) := if (c3 : bool)
                   then (let img' := cv_flip_horizontal img in
                         (img', box_flip_horizontal b (of_int (width img'))))
                   else (img, b) in
  mret (extend_image_target d img (target_extend_bbox (target d) b)).

(** [resize_to(dest_size)] with [dest_size = (cw, ch)]; [box.transform] is
    called with its default offset [(0, 0)]. *)
Definition resize_to (dest_size : Z * Z) (d : Sample T Pix) : result (Sample T Pix) :=
  let '(cw, ch) := dest_size in
  let! sx := truediv (of_int cw) (of_int (width (image d))) in
  let! sy := truediv (of_int ch) (of_int (height (image d))) in
  Ok (extend_image_target d (transforms_resize_to (image d) dest_size)
        (target_extend_bbox (target d)
           (box_transform (bbox (target d)) (of_int 0, of_int 0) (sx, sy)))).

(** The per-axis scale [(sx, sy)] of [random_crop_padded]: the first three
    statements of its [apply]. *)
Definition crop_scale (scale_range aspect_range : T * T) : M Rng (T * T) :=
  do! s := random_log (fst scale_range) (snd scale_range) in
  do! aspect := random_log (fst aspect_range) (snd aspect_range) in
  do! r1 := lift_result (math_sqrt aspect) in
  do! r2 := lift_result (math_sqrt aspect) in
  do! sy := lift_result (truediv s r2) in
  mret (nmul s r1, sy).

(** The crop origin [(x, y)] of [random_crop_padded]: an unbiased placement
    first, replaced by one near a drawn instance when the draw selects
    it and the image has instances.  [bbox[instance]] out of range raises
    [IndexError]. *)
Definition crop_origin (input_size : Z * Z) (region_size : T * T)
    (border_bias select_instance : T) (t : Target T) : M Rng (T * T) :=
  let n := Z.of_nat (length (label t)) in
  do! xy := lift_draw (crop_padded input_size region_size border_bias) in
  do! u := lift_draw (uniform (of_int 0) (of_int 1)) in
  if nltb u select_instance && (0 <? n)%Z
  then do! instance := lift_draw (randint 0 (n - 1)) in
       match bbox t !! Z.to_nat instance with
       | Some r => lift_draw (crop_target input_size region_size (as_tuple r))
       | None => lift_result (Raise IndexError)
       end
  else mret xy.

(** The rest of [apply] in [random_crop_padded], once [(sx, sy)] is
    known: region, crop origin, affine warp and box transform. *)
Definition crop_at (dest_size : Z * Z) (border_bias select_instance : T)
    (d : Sample T Pix) (sxy : T * T) : M Rng (Sample T Pix) :=
  let '(cw, ch) := dest_size in
  let '(sx, sy) := sxy in
  let input_size := (width (image d), height (image d)) in
  do! rw := lift_result (truediv (of_int cw) sx) in
  do! rh := lift_result (truediv (of_int ch) sy) in
  let region_size := (rw, rh) in
  do! xy := crop_origin input_size region_size border_bias select_instance (target d) in
  let '(x, y) := xy in
  let centre := (nadd x (nmul rw half), nadd y (nmul rh half)) in
  let t := make_affine dest_size centre (sx, sy) in
  mret (extend_image_target d (warp_affine (image d) t dest_size)
          (target_extend_bbox (target d)
             (box_transform (bbox (target d)) (nneg x, nneg y) (sx, sy)))).

(** [random_crop_padded(dest_size, scale_range, aspect_range, border_bias,
    select_instance)] *)
Definition random_crop_padded (dest_size : Z * Z) (scale_range aspect_range : T * T)
    (border_bias select_instance : T) (d : Sample T Pix) : M Rng (Sample T Pix) :=
  do! sxy := crop_scale scale_range aspect_range in
  crop_at dest_size border_bias select_instance d sxy.

(** The geometric transforms, as values. *)
Inductive Geometric : Type :=
| GScale (s : T)
| GResize (size : T)
| GResizeTo (dest_size : Z * Z)
| GRandomFlips (horizontal vertical transposes : bool)
| GRandomCropPadded (dest_size : Z * Z) (scale_range aspect_range : T * T)
                    (border_bias select_instance : T).

(** Applying one of them to a record. *)
Definition apply_geometric (tr : Geometric) (d : Sample T Pix) : M Rng (Sample T Pix) :=
  match tr with
  | GScale s => mret (scale s d)
  | GResize size => lift_result (resize size d)
  | GResizeTo dest_size => lift_result (resize_to dest_size d)
  | GRandomFlips h v t => random_flips h v t d
  | GRandomCropPadded dest sr ar bb si => random_crop_padded dest sr ar bb si d
  end.

(** [filter_boxes(min_visible)] *)
Definition filter_boxes (min_visible : T) (d : Sample T Pix) : Sample T Pix :=
  let size := (width (image d), height (image d)) in
  extend_target d (filter_hidden (target d) (of_int 0, of_int 0) size min_visible).
End Transforms.

(* ------------------------------------------------------------------ *)
(** ** Encoding and repetition *)

(** The record that [encode_target] builds. *)
Record Encoded (T Pix Enc : Type) : Type := mkEncoded {
  e_image : Image Pix;
  encoding : Enc;
  e_target : Target T;
  lengths : nat;
  e_id : string
}.
Arguments mkEncoded {T Pix Enc} _ _ _ _ _.
Arguments e_image {T Pix Enc} _.
Arguments encoding {T Pix Enc} _.
Arguments e_target {T Pix Enc} _.
Arguments lengths {T Pix Enc} _.
Arguments e_id {T Pix Enc} _.

(** [encode_target(encoder)] *)
Definition encode_target {T Pix Enc} `{Encoder T Pix Enc}
    (d : Sample T Pix) : Encoded T Pix Enc :=
  let enc := encode (image d) (target d) in
  mkEncoded (image d) enc (target d) (length (label (target d))) (d_id d).

(** [identity(x)] *)
Definition identity {A} (x : A) : A := x.

(** [multiple(n, transform)]: the transform is run [n] times on the same
    record, each run drawing from the generator in turn. *)
Fixpoint multiple {Rng A B} (n : nat) (transform : A -> M Rng B) (data : A)
    : M Rng (list B) :=
  match n with
  | O => mret []
  | S n' => do! x := transform data in
            do! xs := multiple n' transform data in
            mret (x :: xs)
  end.

(** [flatten(collate_fn)] *)
Definition flatten {A B} (collate_fn : list A -> B) (lists : list (list A)) : B :=
  collate_fn (concat lists).

(* ------------------------------------------------------------------ *)
(** ** Samplers and batch producers *)

(** The options of [args] that the loaders read. *)
Record Args : Type := mkArgs {
  epoch_size : option Z;
  image_samples : Z;
  batch_size : Z;
  num_workers : Z
}.

(** The samplers, with their constructor arguments. *)
Inductive Sampler : Type :=
| SequentialSampler (len : Z)            (* the loader's default *)
| RepeatSampler (n : Z) (len : Z)        (* [RepeatSampler(n, len(dataset))] *)
| TorchRandomSampler (len : Z)           (* [RandomSampler(dataset)] *)
| DirectRandomSampler (len : Z) (n : Z)  (* [direct.RandomSampler(images, n)] *)
| ListSampler (len : Z).                 (* [direct.ListSampler(images)] *)

(** A [DataLoader], as constructed: the keyword arguments the claims are
    about.  The dataset object and the collate function are not recorded. *)
Record DataLoader : Type := mkDataLoader {
  dl_num_workers : Z;
  dl_batch_size : Z;
  dl_sampler : Sampler
}.

(** [DataLoader(dataset, num_workers=.., batch_size=.., sampler=..)]: the
    loader class rejects a negative [num_workers] and a [batch_size] that
    is not positive with [ValueError]. *)
Definition new_DataLoader (workers batch : Z) (sampler : Sampler) : result DataLoader :=
  if (workers <? 0)%Z || (batch <=? 0)%Z
  then Raise ValueError
  else Ok (mkDataLoader workers batch sampler).

(** [RandomSampler(dataset)] of the loader library: [ValueError] on an empty
    dataset.  The samplers of [libs.tools] are taken as constructed. *)
Definition new_RandomSampler (len : Z) : result Sampler :=
  if (len <=? 0)%Z then Raise ValueError else Ok (TorchRandomSampler len).

(** The number of base images a repeat sampler draws per epoch. *)
Definition draws_per_epoch (s : Sampler) : option Z :=
  match s with
  | RepeatSampler n _ => Some n
  | DirectRandomSampler _ n => Some n
  | SequentialSampler _ | TorchRandomSampler _ | ListSampler _ => None
  end.

(** The builtin [round(x)] of a float: nearest integer, ties to even. *)
Definition py_round (q : Q) : Z :=
  let f := Qfloor q in
  match Qcompare (q - inject_Z f) (1 # 2) with
  | Lt => f
  | Gt => (f + 1)%Z
  | Eq => if Z.even f then f else (f + 1)%Z
  end.

(** [2 ** z] as a rational. *)
Definition pow2 (z : Z) : Q :=
  match z with
  | Z0 => 1
  | Zpos p => inject_Z (2 ^ Zpos p)
  | Zneg p => 1 # (2 ^ p)
  end.

(** [floor(log2(q))] of a positive rational. *)
Definition ilog2 (q : Q) : Z :=
  let d := (Z.log2 (Qnum q) - Z.log2 (Zpos (Qden q)))%Z in
  if Qle_bool (pow2 d) q then d else (d - 1)%Z.

(** The [float] (binary64) nearest to a rational, ties to the even
    significand: 53 significant bits, exponents from -1022 (gradual
    underflow below); [None] when the result is too large for a float. *)
Definition binary64 (q0 : Q) : option Q :=
  let q := Qred q0 in
  if Qeq_bool q 0 then Some 0%Q
  else
    let a := Qabs q in
    let ex := Z.max (ilog2 a) (-1022) in
    let m := py_round (a * pow2 (52 - ex)) in
    let r := (inject_Z m * pow2 (ex - 52))%Q in
    if Qle_bool (pow2 1024) r then None
    else Some (if Qle_bool 0 q then r else (- r)%Q).

(** [a / b] on two [int]s: the correctly rounded [float] quotient,
    [OverflowError] when it is too large for a float. *)
Definition int_truediv (a b : Z) : result Q :=
  if (b =? 0)%Z then Raise ZeroDivisionError
  else match binary64 (inject_Z a / inject_Z b) with
       | Some q => Ok q
       | None => Raise OverflowError
       end.

(** [a % b] on two [int]s. *)
Definition int_mod (a b : Z) : result Z :=
  if (b =? 0)%Z then Raise ZeroDivisionError else Ok (a mod b)%Z.

(** [a // b] on two [int]s. *)
Definition int_floordiv (a b : Z) : result Z :=
  if (b =? 0)%Z then Raise ZeroDivisionError else Ok (a / b)%Z.

(** [load_training(args, dataset)]; [len] is [len(dataset)].  With
    [epoch_size] unset, [None / image_samples] raises [TypeError]. *)
Definition load_training (args : Args) (len : Z) : result DataLoader :=
  let! n := match epoch_size args with
            | None => Raise TypeError
            | Some e => let! q := int_truediv e (image_samples args) in
                        Ok (py_round q)
            end in
  let truthy := match epoch_size args with
                | Some e => negb (e =? 0)%Z
                | None => false
                end in
  let! sampler := if truthy then Ok (RepeatSampler n len)
                  else new_RandomSampler len in
  new_DataLoader (num_workers args) (batch_size args) sampler.

(** [sample_training(args, images, loader, transform)]; [len] is the number
    of [images]. *)
Definition sample_training (args : Args) (len : Z) : result DataLoader :=
  let! _ := py_assert (match epoch_size args with
                       | None => true
                       | Some e => (0 <? e)%Z
                       end) "" in
  let! r := int_mod (batch_size args) (image_samples args) in
  let! _ := py_assert (r =? 0)%Z "batch_size should be a multiple of image_samples" in
  let! sampler := match epoch_size args with
                  | Some e => let! n := int_floordiv e (image_samples args) in
                              Ok (DirectRandomSampler len n)
                  | None => Ok (ListSampler len)
                  end in
  let! b := int_floordiv (batch_size args) (image_samples args) in
  new_DataLoader (num_workers args) b sampler.

(** [load_testing(args, images)] *)
Definition load_testing (args : Args) (len : Z) : result DataLoader :=
  new_DataLoader (num_workers args) 1 (SequentialSampler len).

(* ------------------------------------------------------------------ *)
(** ** The dataset facade *)

(** [DetectionDataset]: the [images] dict and the [classes] list. *)
Record DetectionDataset (T : Type) : Type := mkDataset {
  images : gmap string (ImageInfo T);
  classes : list string
}.
Arguments mkDataset {T} _ _.
Arguments images {T} _.
Arguments classes {T} _.

(** [image.evaluated = net_id] *)
Definition set_evaluated {T} (net_id : Z) (i : ImageInfo T) : ImageInfo T :=
  mkInfo (info_id i) (info_file i) (category i) (Some net_id) (info_target i).

(** [image._extend(target=image.target._extend(bbox=b))] *)
Definition info_extend_bbox {T} (i : ImageInfo T) (b : list (Box T)) : ImageInfo T :=
  mkInfo (info_id i) (info_file i) (category i) (evaluated i)
         (target_extend_bbox (info_target i) b).

(** The running totals of [add_noise].  [iou] starts as the [int] 0 and
    becomes a tensor with the first training image added. *)
Inductive IouTotal (T : Type) : Type :=
| IntZero
| TensorSum (v : T).
Arguments IntZero {T}.
Arguments TensorSum {T} v.

Record Totals (T : Type) : Type := mkTotals {
  tot_iou : IouTotal T;
  tot_n : Z
}.
Arguments mkTotals {T} _ _.
Arguments tot_iou {T} _.
Arguments tot_n {T} _.

(** What [totals.iou / totals.n] evaluates to when it does not raise: a
    quotient, or with a tensor dividend and a zero divisor a non-finite
    tensor (nan or infinity). *)
Inductive MeanIou (T : Type) : Type :=
| Quotient (v : T)
| NonFinite (dividend : T).
Arguments Quotient {T} v.
Arguments NonFinite {T} dividend.

Section Dataset.
Context {T : Type} `{PyNum T}.

(** [update_image(image)] *)
Definition update_image (i : ImageInfo T) (self : DetectionDataset T)
    : DetectionDataset T :=
  mkDataset (<[info_id i := i]> (images self)) (classes self).

(** [get_images(k)]: the records in the enumeration order of the map (the
    dict enumerates in insertion order; no property below depends on the
    order). *)
Definition get_images (k : option string) (self : DetectionDataset T)
    : list (ImageInfo T) :=
  List.filter (fun i => match k with
                        | None => true
                        | Some c => bool_decide (category i = c)
                        end) (snd <$> map_to_list (images self)).

Definition train_images (self : DetectionDataset T) : list (ImageInfo T) :=
  get_images (Some "train") self.

(** [mark_evalated(files, net_id)]: the dataset as the loop leaves it,
    and how the call ends. *)
Fixpoint mark_evalated (files : list string) (net_id : Z)
    (self : DetectionDataset T) : DetectionDataset T * result unit :=
  match files with
  | [] => (self, Ok tt)
  | k :: rest =>
      if bool_decide (k ∈ dom (images self))
      then mark_evalated rest net_id
             (mkDataset (alter (set_evaluated net_id) k (images self))
                        (classes self))
      else (self, Raise (AssertionError ("mark_evaluated, invalid file: " +:+ k)))
  end.

(** [count_categories()] *)
Definition count_categories (self : DetectionDataset T) : gmap string Z :=
  foldl (fun (categories : gmap string Z) (i : ImageInfo T) =>
           let count := default 0%Z (categories !! category i) in
           <[category i := (count + 1)%Z]> categories)
        ∅ (snd <$> map_to_list (images self)).
End Dataset.

Section AddNoise.
Context {T Rng : Type} `{PyNum T} `{PyRandom T Rng} `{BoxLib T}.

(** Modelled from the spec: [image.target._size] of the missing table type,
    the number of rows of the target table (its instance count). *)
Definition table_size (t : Target T) : nat := length (bbox t).

(** [torch.randn(n, 2)]: [n] rows of two draws each. *)
Fixpoint randn2 (n : nat) (g : Rng) : list (T * T) * Rng :=
  match n with
  | O => ([], g)
  | S n' => let '(a, g1) := normal g in
            let '(b, g2) := normal g1 in
            let '(rows, g3) := randn2 n' g2 in
            ((a, b) :: rows, g3)
  end.

(** [iou_matrix_matched(a, b).sum()] *)
Definition iou_sum (a b : list (Box T)) : T :=
  foldl nadd (of_int 0) (zip_with iou_matched a b).

(** Modelled from the spec: [totals += struct(iou=v, n=n)], the addition of
    the missing struct type, adds field by field. *)
Definition totals_add (totals : Totals T) (v : T) (n : Z) : Totals T :=
  mkTotals (match tot_iou totals with
            | IntZero => TensorSum (nadd (of_int 0) v)
            | TensorSum a => TensorSum (nadd a v)
            end)
           (tot_n totals + n)%Z.

(** [add_image_noise(image)], with the totals it updates. *)
Definition add_image_noise (noise offset : T) (i : ImageInfo T)
    (totals : Totals T) (g : Rng) : ImageInfo T * Totals T * Rng :=
  let n := table_size (info_target i) in
  let b := bbox (info_target i) in
  let train := bool_decide (category i = "train") in
  let ext := (fun '((cx, cy), (sw, sh)) =>
                ((nadd cx (nmul offset sw), nadd cy (nmul offset sh)), (sw, sh)))
             <$> box_extents b in
  let '(ext, g) :=
    if train
    then let '(r1, g1) := randn2 n g in
         let ext1 := zip_with (fun '((cx, cy), (sw, sh)) '(a, c) =>
                       ((nadd cx (nmul (nmul a noise) sw),
                         nadd cy (nmul (nmul c noise) sh)), (sw, sh))) ext r1 in
         let '(r2, g2) := randn2 n g1 in
         let ext2 := zip_with (fun '((cx, cy), (sw, sh)) '(a, c) =>
                       ((cx, cy),
                        (nmul sw (nadd (nmul a noise) (of_int 1)),
                         nmul sh (nadd (nmul c noise) (of_int 1))))) ext1 r2 in
         (ext2, g2)
    else (ext, g) in
  let noisy := box_point_form ext in
  let totals := if train
                then totals_add totals (iou_sum noisy b) (Z.of_nat n)
                else totals in
  (info_extend_bbox i noisy, totals, g).

(** The dict comprehension of [add_noise] over the items of [images]. *)
Fixpoint add_noise_items (noise offset : T) (items : list (string * ImageInfo T))
    (totals : Totals T) (g : Rng)
    : list (string * ImageInfo T) * Totals T * Rng :=
  match items with
  | [] => ([], totals, g)
  | (k, i) :: rest =>
      let '(i', totals1, g1) := add_image_noise noise offset i totals g in
      let '(rest', totals2, g2) := add_noise_items noise offset rest totals1 g1 in
      ((k, i') :: rest', totals2, g2)
  end.

(** [totals.iou / totals.n] with [totals.n] an [int]: [int / int] raises
    on a zero divisor, a tensor divided by zero is non-finite. *)
Definition mean_iou (totals : Totals T) : result (MeanIou T) :=
  let n := tot_n totals in
  match tot_iou totals with
  | IntZero => if (n =? 0)%Z
               then Raise ZeroDivisionError
               else Ok (Quotient (ndiv (of_int 0) (of_int n)))
  | TensorSum v => if (n =? 0)%Z
                   then Ok (NonFinite v)
                   else Ok (Quotient (ndiv v (of_int n)))
  end.

(** The totals [add_noise] has accumulated when it reaches its report. *)
Definition add_noise_totals (noise offset : T) (self : DetectionDataset T)
    (g : Rng) : Totals T :=
  snd (fst (add_noise_items noise offset (map_to_list (images self))
                            (mkTotals IntZero 0) g)).

(** [add_noise(noise, offset)]: the dataset with the new [images] dict,
    the generator state, and the mean IoU that is printed (or the
    exception of the division). *)
Definition add_noise (noise offset : T) (self : DetectionDataset T) (g : Rng)
    : DetectionDataset T * Rng * result (MeanIou T) :=
  let '(items, totals, g') :=
    add_noise_items noise offset (map_to_list (images self))
                    (mkTotals IntZero 0) g in
  (mkDataset (list_to_map items) (classes self), g', mean_iou totals).

(** The number of instances of the images tagged ['train']. *)
Definition train_instances (self : DetectionDataset T) : Z :=
  foldr (fun i acc => (Z.of_nat (table_size (info_target i)) + acc)%Z) 0%Z
        (train_images self).
End AddNoise.

(* ------------------------------------------------------------------ *)
(** ** Concrete collaborators, for running the definitions *)

(** A generator that replays a list of recorded draws ([0] once the list
    is exhausted); [randint(a, b)] answers [a]. *)
#[export] Instance replay_PyRandom {T} `{PyNum T} : PyRandom T (list T) := {
  random := fun g => match g with [] => (of_int 0, []) | x :: g' => (x, g') end;
  randint := fun a _ g => (a, g);
  normal := fun g => match g with [] => (of_int 0, []) | x :: g' => (x, g') end
}.

(** Images without pixels: every primitive keeps the shape it is given,
    crops start at the origin. *)
#[export] Instance blank_ImageLib {T Rng} `{PyNum T} : ImageLib T unit Rng := {
  Affine := unit;
  imread_color := fun _ => mkImage 0 0 3 tt;
  resize_scale := fun img _ => img;
  px_resize_to := fun _ _ => tt;
  px_transpose := fun _ => tt;
  cv_flip_vertical := fun img => img;
  cv_flip_horizontal := fun img => img;
  crop_padded := fun _ _ _ g => ((of_int 0, of_int 0), g);
  crop_target := fun _ _ _ g => ((of_int 0, of_int 0), g);
  make_affine := fun _ _ _ => tt;
  warp_affine := fun img _ dest => mkImage (snd dest) (fst dest) (channels img) tt
}.

(** Box functions for the runs: nothing is hidden, every matched pair
    overlaps fully. *)
#[export] Instance plain_BoxLib {T} `{PyNum T} : BoxLib T := {
  filter_hidden := fun t _ _ _ => t;
  iou_matched := fun _ _ => of_int 1
}.

(** Equality of boxes over the rationals, coordinate by coordinate. *)
Definition box_Qeq (a b : Box Q) : Prop :=
  (x1 a == x1 b)%Q /\ (y1 a == y1 b)%Q /\ (x2 a == x2 b)%Q /\ (y2 a == y2 b)%Q.

(** [bbox] and [label] of a target have the same instance count. *)
Definition counts_match {T} (t : Target T) : Prop :=
  length (bbox t) = length (label t).

(** A 100 x 200 image (height x width) with one instance. *)
Definition sample_100x200 : Sample Q unit :=
  mkSample "a" "a.jpg" (mkImage 100 200 3 tt) (200%Z, 100%Z)
           (mkTarget [mkBox (10 # 1) (20 # 1) (30 # 1) (40 # 1)] [1%Z]).

(** The same record over the reals. *)
Definition sample_R : Sample R unit :=
  mkSample "a" "a.jpg" (mkImage 100 200 3 tt) (200%Z, 100%Z)
           (mkTarget [mkBox 10%R 20%R 30%R 40%R] [1%Z]).

(** A dataset of two records: ['B'], a test image with one instance, and
    ['C'], a training image without instances. *)
Definition info_B : ImageInfo Q :=
  mkInfo "B" "b.jpg" "test" None
         (mkTarget [mkBox (10 # 1) (20 # 1) (30 # 1) (40 # 1)] [1%Z]).

Definition info_C : ImageInfo Q :=
  mkInfo "C" "c.jpg" "train" None empty_target.

Definition dataset_BC : DetectionDataset Q :=
  mkDataset (<["B" := info_B]> (<["C" := info_C]> ∅)) ["seal"].


(* ------------------------------------------------------------------ *)
(** ** Detection post-processing ([create_heatmap_vid.py],
    [scripts/locate_seals.py]) *)

Section Responsible.
Context {T Pix : Type} `{PyNum T}.

(** [abs(x)] *)
Definition py_abs (x : T) : T := if nltb x (of_int 0) then nneg x else x.

(** [(a / b) > r] on tensor entries with [a >= 0]: a division by zero does
    not raise, it gives infinity (which exceeds [r]) for a positive
    dividend and nan (which exceeds nothing) for a zero one. *)
Definition ratio_exceeds (a b r : T) : bool :=
  if nzero b then nltb (of_int 0) a else nltb r (ndiv a b).

(** [is_responsible_bbox(bbox, frame)] *)
Definition is_responsible_bbox (b : Box T) (frame : Image Pix) : bool :=
  let h := py_abs (nsub (y2 b) (y1 b)) in
  let w := py_abs (nsub (x2 b) (x1 b)) in
  let area := nmul h w in
  if nltb (of_int 1000) area then false
  else if nltb (x1 b) (of_int 0) || nltb (of_int (width frame)) (x2 b)
          || nltb (y1 b) (of_int 0) || nltb (of_int (height frame)) (y2 b)
  then false
  else let ratio := of_int 5 in
       if ratio_exceeds w h ratio || ratio_exceeds h w ratio then false
       else true.
End Responsible.

(** [TIMELAPSE_FPS] *)
Definition TIMELAPSE_FPS : Z := 24.

(** [round(1000*(i*(1/TIMELAPSE_FPS)))], the time code in milliseconds of
    frame [i]. *)
Definition timecode (i : nat) : Z :=
  py_round (inject_Z 1000 * (inject_Z (Z.of_nat i) * (inject_Z 1 / inject_Z TIMELAPSE_FPS)))%Q.

(** [int(x)] of a number: truncation towards zero. *)
Definition Q_to_int (q : Q) : Z := Z.quot (Qnum q) (Zpos (Qden q)).

(** A cell of a CSV row. *)
Inductive Cell : Type :=
| CStr (s : string)
| CInt (z : Z).

Section DetectSeals.
Context {Pix : Type}.
(** [cv.imread_color], and [evaluate_image] with the model, the encoder, the
    NMS parameters and the device fixed: the [detections.bbox] rows of a
    frame. *)
Variable imread : string -> Image Pix.
Variable evaluate_image : Image Pix -> list (Box Q).

(** The points of one frame in [detect_seals]: the centres of the
    responsible boxes, with the frame's time code. *)
Definition img_points (i : nat) (img : string) : list (Q * Q * Z) :=
  let frame := imread img in
  let results := evaluate_image frame in
  map (fun b => (((x1 b + x2 b) / inject_Z 2)%Q, ((y1 b + y2 b) / inject_Z 2)%Q,
                 timecode i))
      (List.filter (fun b => is_responsible_bbox b frame) results).

(** The loop of [detect_seals] from index [i] on. *)
Fixpoint detect_seals_from (i : nat) (image_files : list string) : list (Q * Q * Z) :=
  match image_files with
  | [] => []
  | img :: rest => img_points i img ++ detect_seals_from (S i) rest
  end.

(** [detect_seals(model, encoder, device, image_files)] *)
Definition detect_seals (image_files : list string) : list (Q * Q * Z) :=
  detect_seals_from 0 image_files.

(** The points of one frame in [detect_seals_with_CSV]: integer centres. *)
Definition img_points_int (i : nat) (img : string) : list (Z * Z * Z) :=
  let frame := imread img in
  let results := evaluate_image frame in
  map (fun b => (Q_to_int ((x1 b + x2 b) / inject_Z 2)%Q,
                 Q_to_int ((y1 b + y2 b) / inject_Z 2)%Q,
                 timecode i))
      (List.filter (fun b => is_responsible_bbox b frame) results).

(** [writer.writerows(img_points)] *)
Definition csv_rows (points : list (Z * Z * Z)) : list (list Cell) :=
  map (fun '(x, y, t) => [CInt x; CInt y; CInt t]) points.

(** The loop of [detect_seals_with_CSV] from index [i] on: the points and
    the rows written. *)
Fixpoint detect_seals_csv_from (i : nat) (image_files : list string)
    : list (Z * Z * Z) * list (list Cell) :=
  match image_files with
  | [] => ([], [])
  | img :: rest =>
      let pts := img_points_int i img in
      let '(points, rows) := detect_seals_csv_from (S i) rest in
      (pts ++ points, csv_rows pts ++ rows)
  end.

(** [detect_seals_with_CSV(model, encoder, device, image_files)]: the points
    returned and the rows of the file written. *)
Definition detect_seals_with_CSV (image_files : list string)
    : list (Z * Z * Z) * list (list Cell) :=
  let '(points, rows) := detect_seals_csv_from 0 image_files in
  (points, [CStr "X pos"; CStr "Y pos"; CStr "Time (ms)"] :: rows).
End DetectSeals.

(** What [add_noise] keeps of a record: everything but the coordinates. *)
Definition same_but_coordinates {T} (i i' : ImageInfo T) : Prop :=
  info_id i' = info_id i /\ info_file i' = info_file i /\
  category i' = category i /\ evaluated i' = evaluated i /\
  label (info_target i') = label (info_target i) /\
  length (bbox (info_target i')) = length (bbox (info_target i)).

(* ------------------------------------------------------------------ *)
(** ** The training and testing pipelines *)

(** [int(x)] on a number: truncation towards zero. *)
Class PyTrunc (T : Type) : Type := {
  to_int : T -> Z
}.

#[export] Instance Q_PyTrunc : PyTrunc Q := {
  to_int := Q_to_int
}.

#[export] Instance R_PyTrunc : PyTrunc R := {
  to_int := fun x => if Rle_dec 0 x then Int_part x else (- Int_part (- x))%Z
}.

(** The photometric adjustments of [libs.tools.image.transforms], each
    drawing from the generator. *)
Class Photometric (T Pix Rng : Type) : Type := {
  adjust_gamma : T -> T -> Image Pix -> Rng -> Image Pix * Rng;
  adjust_brightness : T -> T -> Image Pix -> Rng -> Image Pix * Rng;
  adjust_colours : T -> T -> Image Pix -> Rng -> Image Pix * Rng
}.

(** The options of [args] that the pipelines read, beside those of the
    loaders. *)
Record PipelineArgs (T : Type) : Type := mkPipelineArgs {
  a_loader : Args;
  a_scale : T;
  a_image_size : T;
  a_augment : string;
  a_resize : option T;
  a_min_scale : option T;
  a_max_scale : T;
  a_max_aspect : T;
  a_border_bias : T;
  a_select_instance : T;
  a_min_visible : T;
  a_flips : bool;
  a_vertical_flips : bool;
  a_transposes : bool;
  a_gamma : T;
  a_channel_gamma : T;
  a_brightness : T;
  a_contrast : T;
  a_hue : T;
  a_saturation : T
}.
Arguments a_loader {T} _.
Arguments a_scale {T} _.
Arguments a_image_size {T} _.
Arguments a_augment {T} _.
Arguments a_resize {T} _.
Arguments a_min_scale {T} _.
Arguments a_max_scale {T} _.
Arguments a_max_aspect {T} _.
Arguments a_border_bias {T} _.
Arguments a_select_instance {T} _.
Arguments a_min_visible {T} _.
Arguments a_flips {T} _.
Arguments a_vertical_flips {T} _.
Arguments a_transposes {T} _.
Arguments a_gamma {T} _.
Arguments a_channel_gamma {T} _.
Arguments a_brightness {T} _.
Arguments a_contrast {T} _.
Arguments a_hue {T} _.
Arguments a_saturation {T} _.

Section Pipelines.
Context {T Pix Rng Enc : Type} `{PyNum T} `{PyMath T} `{PyTrunc T}
        `{PyRandom T Rng} `{BoxLib T} `{ImageLib T Pix Rng}
        `{Photometric T Pix Rng}.

(** [a == b] on numbers. *)
Definition py_eqb (a b : T) : bool := negb (nltb a b) && negb (nltb b a).

(** [encode_with(args, encoder)]: the identity without an encoder. *)
Definition encode_with (encoder : option (Encoder T Pix Enc)) (d : Sample T Pix)
    : Sample T Pix + Encoded T Pix Enc :=
  match encoder with
  | None => inl (identity d)
  | Some e => inr (@encode_target T Pix Enc e d)
  end.

(** [(int(args.image_size * s), int(args.image_size * s))] *)
Definition dest_size_of (args : PipelineArgs T) : Z * Z :=
  let s := a_scale args in
  (to_int (nmul (a_image_size args) s), to_int (nmul (a_image_size args) s)).

(** The geometric part that [transform_testing] selects. *)
Definition testing_transform (args : PipelineArgs T) (d : Sample T Pix)
    : result (Sample T Pix) :=
  if bool_decide (a_augment args = "crop")
  then match a_resize args with
       | Some r => resize r d
       | None => if negb (py_eqb (a_scale args) (of_int 1))
                 then Ok (scale (a_scale args) d)
                 else Ok (identity d)
       end
  else if bool_decide (a_augment args = "resize")
  then resize_to (dest_size_of args) d
  else Ok (identity d).

(** [transform_testing(args, encoder)], applied to a record. *)
Definition transform_testing (args : PipelineArgs T)
    (encoder : option (Encoder T Pix Enc)) (d : Sample T Pix)
    : result (Sample T Pix + Encoded T Pix Enc) :=
  let! d1 := testing_transform args d in
  Ok (encode_with encoder d1).

(** [over_struct('image', transforms.compose(adjust_gamma(..),
    adjust_brightness(..), adjust_colours(..)))]: the three adjustments in
    turn, on the [image] field. *)
Definition adjust_light (args : PipelineArgs T) (d : Sample T Pix)
    : M Rng (Sample T Pix) :=
  do! i1 := lift_draw (adjust_gamma (a_gamma args) (a_channel_gamma args) (image d)) in
  do! i2 := lift_draw (adjust_brightness (a_brightness args) (a_contrast args) i1) in
  do! i3 := lift_draw (adjust_colours (a_hue args) (a_saturation args) i2) in
  mret (mkSample (d_id d) (d_file d) i3 (image_size d) (target d)).

(** The [crop] stage that [transform_training] builds, or the exception of
    building it. *)
Definition training_crop (args : PipelineArgs T)
    : result (Sample T Pix -> M Rng (Sample T Pix)) :=
  let s := a_scale args in
  let dest_size := dest_size_of args in
  if bool_decide (a_augment args = "crop")
  then let! min_scale := match a_min_scale args with
                         | Some m => if nzero m
                                     then truediv (of_int 1) (a_max_scale args)
                                     else Ok m
                         | None => truediv (of_int 1) (a_max_scale args)
                         end in
       let! inv_aspect := truediv (of_int 1) (a_max_aspect args) in
       Ok (random_crop_padded dest_size
             (nmul s min_scale, nmul s (a_max_scale args))
             (inv_aspect, a_max_aspect args)
             (a_border_bias args) (a_select_instance args))
  else if bool_decide (a_augment args = "resize")
  then Ok (fun d => lift_result (resize_to dest_size d))
  else Raise (AssertionError ("unknown augmentation method " +:+ a_augment args)).

(** One run of [compose(crop, adjust_light, filter, flip, encode)]. *)
Definition training_run `{Encoder T Pix Enc} (args : PipelineArgs T)
    (crop : Sample T Pix -> M Rng (Sample T Pix)) (d : Sample T Pix)
    : M Rng (Encoded T Pix Enc) :=
  do! d1 := crop d in
  do! d2 := adjust_light args d1 in
  let d3 := filter_boxes (a_min_visible args) d2 in
  do! d4 := random_flips (a_flips args) (a_vertical_flips args) (a_transposes args) d3 in
  mret (encode_target d4).

(** [transform_training(args, encoder)] with an encoder (without one,
    [deepcopy(encoder).to('cpu')] fails on [None]): the pipeline, or the
    exception of building it. *)
Definition transform_training `{Encoder T Pix Enc} (args : PipelineArgs T)
    : result (Sample T Pix -> M Rng (list (Encoded T Pix Enc))) :=
  let! crop := training_crop args in
  Ok (multiple (Z.to_nat (image_samples (a_loader args))) (training_run args crop)).

(** [DetectionDataset.train(args, encoder)]: the pipeline is built first,
    then the loader over the training images. *)
Definition train `{Encoder T Pix Enc} (args : PipelineArgs T)
    (self : DetectionDataset T) : result DataLoader :=
  let! _ := transform_training args in
  load_training (a_loader args) (Z.of_nat (length (train_images self))).

(** [DetectionDataset.sample_train_on(images, args, encoder)] *)
Definition sample_train_on `{Encoder T Pix Enc} (imgs : list (ImageInfo T))
    (args : PipelineArgs T) : result DataLoader :=
  let! _ := transform_training args in
  sample_training (a_loader args) (Z.of_nat (length imgs)).

(** [DetectionDataset.sample_train(args, encoder)] *)
Definition sample_train `{Encoder T Pix Enc} (args : PipelineArgs T)
    (self : DetectionDataset T) : result DataLoader :=
  sample_train_on (train_images self) args.

(** [DetectionDataset.load_inference(id, file, args)]: the record has no
    category and no evaluation mark. *)
Definition load_inference (id file : string) (args : PipelineArgs T)
    : result (Image Pix) :=
  let d := mkInfo id file "" None empty_target in
  let! r := transform_testing args None (load_image d) in
  Ok (match r with
      | inl d' => image d'
      | inr e => e_image e
      end).
End Pipelines.

(** Photometric adjustments that leave the image alone, and an encoder
    that counts the labels, for the runs. *)
#[export] Instance blank_Photometric {T Rng} : Photometric T unit Rng := {
  adjust_gamma := fun _ _ img g => (img, g);
  adjust_brightness := fun _ _ img g => (img, g);
  adjust_colours := fun _ _ img g => (img, g)
}.

#[export] Instance counting_Encoder {T} : Encoder T unit nat := {
  encode := fun _ t => length (label t)
}.

(** Pipeline options over the reals: resizing to 64 x 64, one sample per
    image, no epoch size. *)
Definition args_resize_R : PipelineArgs R :=
  mkPipelineArgs R (mkArgs None 1 4 0) 1%R 64%R "resize" None None 2%R 2%R
                 0%R 0%R 0%R false false false 0%R 0%R 0%R 0%R 0%R 0%R.

(** Pipeline options over the reals with an augmentation method that does
    not exist. *)
Definition args_unknown_R : PipelineArgs R :=
  mkPipelineArgs R (mkArgs (Some 8%Z) 1 4 0) 1%R 64%R "rotate" None None 2%R 2%R
                 0%R 0%R 0%R false false false 0%R 0%R 0%R 0%R 0%R 0%R.

(** Test-time options over the rationals: ["resize"] to 64 x 64. *)
Definition args_resize_Q : PipelineArgs Q :=
  mkPipelineArgs Q (mkArgs None 1 4 0) 1%Q 64%Q "resize" None None 2%Q 2%Q
                 0%Q 0%Q 0%Q false false false 0%Q 0%Q 0%Q 0%Q 0%Q 0%Q.

(** Test-time options over the rationals: ["crop"], no resize, scale 1. *)
Definition args_plain_Q : PipelineArgs Q :=
  mkPipelineArgs Q (mkArgs None 1 4 0) 1%Q 64%Q "crop" None None 2%Q 2%Q
                 0%Q 0%Q 0%Q false false false 0%Q 0%Q 0%Q 0%Q 0%Q 0%Q.

(* ================================================================== *)
(** * Properties *)

(* ------------------------------------------------------------------ *)
(** ** [resize] and [resize_to] over the rationals *)

Section ResizeFacts.
Context {Pix Rng : Type} `{ImageLib Q Pix Rng}.

Local Open Scope Q_scope.

Lemma nzero_Q_false (q : Q) : ~ q == 0 -> nzero q = false.
Proof.
  intros Hq. simpl. destruct (Qeq_bool q (0 # 1)) eqn:E; [|reflexivity].
  apply Qeq_bool_iff in E. contradiction.
Qed.

Lemma inject_Z_pos_nonzero (z : Z) : (0 < z)%Z -> ~ inject_Z z == 0.
Proof.
  intros Hz E. unfold Qeq in E. simpl in E. lia.
Qed.

Lemma truediv_Q_pos (a : Q) (z : Z) :
  (0 < z)%Z -> truediv a (of_int z) = Ok (a / inject_Z z).
Proof.
  intros Hz. unfold truediv.
  change (of_int z) with (inject_Z z).
  rewrite (nzero_Q_false _ (inject_Z_pos_nonzero z Hz)). reflexivity.
Qed.

(** A non-negative numerator over a larger positive denominator gives a
    smaller quotient. *)
Lemma Qdiv_antitone (size : Q) (a b : Z) :
  (0 < a)%Z -> (a <= b)%Z -> 0 <= size ->
  size / inject_Z b <= size / inject_Z a.
Proof.
  intros Ha Hab Hs.
  assert (Haq : 0 < inject_Z a) by (unfold Qlt; simpl; lia).
  assert (Hbq : 0 < inject_Z b) by (unfold Qlt; simpl; lia).
  apply Qle_shift_div_l; [exact Haq|].
  assert (E : size / inject_Z b * inject_Z a == size * inject_Z a / inject_Z b)
    by (field; apply inject_Z_pos_nonzero; lia).
  rewrite E. apply Qle_shift_div_r; [exact Hbq|].
  apply Qmult_le_compat_nonneg.
  - split; [exact Hs | apply Qle_refl].
  - split; [apply Qlt_le_weak; exact Haq | rewrite <- Zle_Qle; exact Hab].
Qed.

(** With a non-negative numerator, the larger quotient is the one by the
    smaller denominator. *)
Lemma py_max_quotients (size : Q) (h w : Z) :
  (0 < h)%Z -> (0 < w)%Z -> 0 <= size ->
  py_max (size / inject_Z h) (size / inject_Z w) == size / inject_Z (Z.min h w).
Proof.
  intros Hh Hw Hs. unfold py_max. simpl.
  destruct (Qle_bool (size / inject_Z w) (size / inject_Z h)) eqn:E; simpl.
  - (* size / w <= size / h: the factor is size / h *)
    apply Qle_bool_iff in E.
    destruct (Z.le_gt_cases h w) as [Hle | Hgt].
    + rewrite Z.min_l by exact Hle. reflexivity.
    + rewrite Z.min_r by lia.
      apply Qle_antisym; [|exact E].
      apply Qdiv_antitone; [exact Hw | lia | exact Hs].
  - (* size / h < size / w: the factor is size / w *)
    destruct (Z.le_gt_cases w h) as [Hle | Hgt].
    + rewrite Z.min_r by exact Hle. reflexivity.
    + exfalso.
      assert (Hc : size / inject_Z w <= size / inject_Z h)
        by (apply Qdiv_antitone; [exact Hh | lia | exact Hs]).
      apply Qle_bool_iff in Hc. congruence.
Qed.

(** C1 (as amended): on an image with positive height [h] and width [w] and
    a non-negative target size, [resize(size)] applies [scale] with the
    factor [max(size / h, size / w)], and that factor equals [size] divided
    by the SMALLER of [h] and [w]: it is the shorter side that reaches
    [size]. *)
Theorem resize_factor_shorter_side (size : Q) (d : Sample Q Pix) :
  (0 < height (image d))%Z -> (0 < width (image d))%Z -> 0 <= size ->
  exists s : Q,
    resize_factor size d = Ok s /\
    resize size d = Ok (scale s d) /\
    s == size / inject_Z (Z.min (height (image d)) (width (image d))).
Proof.
  intros Hh Hw Hs.
  exists (py_max (size / inject_Z (height (image d)))
                 (size / inject_Z (width (image d)))).
  assert (Hf : resize_factor size d
               = Ok (py_max (size / inject_Z (height (image d)))
                            (size / inject_Z (width (image d))))).
  { unfold resize_factor. rewrite !truediv_Q_pos by assumption. reflexivity. }
  split; [exact Hf|]. split.
  - unfold resize. rewrite Hf. reflexivity.
  - apply py_max_quotients; assumption.
Qed.

(** Scaling a coordinate by [a / b] and then by [b / a], each time with the
    offset 0 of [box.transform], gives it back. *)
Lemma scale_there_and_back (x : Q) (a b : Z) :
  (0 < a)%Z -> (0 < b)%Z ->
  ((x + inject_Z 0) * (inject_Z a / inject_Z b) + inject_Z 0)
    * (inject_Z b / inject_Z a) == x.
Proof.
  intros Ha Hb.
  pose proof (inject_Z_pos_nonzero a Ha). pose proof (inject_Z_pos_nonzero b Hb).
  change (inject_Z 0) with 0. field. split; assumption.
Qed.

(** C8: [resize_to((W, H))] followed by [resize_to((orig_w, orig_h))]
    succeeds on an image of positive dimensions and gives back the image
    shape, the labels and, coordinate by coordinate over exact rational
    arithmetic, the original boxes. *)
Theorem resize_to_round_trip (W Ht : Z) (d : Sample Q Pix) :
  (0 < W)%Z -> (0 < Ht)%Z ->
  (0 < width (image d))%Z -> (0 < height (image d))%Z ->
  exists d1 d2 : Sample Q Pix,
    resize_to (W, Ht) d = Ok d1 /\
    resize_to (width (image d), height (image d)) d1 = Ok d2 /\
    Forall2 box_Qeq (bbox (target d2)) (bbox (target d)) /\
    label (target d2) = label (target d) /\
    width (image d2) = width (image d) /\
    height (image d2) = height (image d).
Proof.
  intros HW HH Hw Hh.
  eexists. eexists.
  split.
  { unfold resize_to. rewrite !truediv_Q_pos by assumption. reflexivity. }
  split.
  { unfold resize_to. simpl. rewrite !truediv_Q_pos by assumption. reflexivity. }
  simpl. repeat split.
  induction (bbox (target d)) as [|r rest IH]; simpl.
  - constructor.
  - constructor; [|exact IH].
    unfold box_Qeq; simpl.
    repeat split; apply scale_there_and_back; assumption.
Qed.

End ResizeFacts.

(** On the 100 x 200 image, [resize(50)] applies the factor 1/2: the height
    becomes 50 and the width 100. *)
Lemma resize_factor_shorter_side_witness :
  (0 < height (image sample_100x200))%Z /\
  (0 < width (image sample_100x200))%Z /\
  (0 <= 50 # 1)%Q /\
  exists s : Q,
    resize_factor (50 # 1) sample_100x200 = Ok s /\
    resize (Rng := list Q) (50 # 1) sample_100x200
      = Ok (scale (Rng := list Q) s sample_100x200) /\
    (s == (50 # 1) / inject_Z (Z.min (height (image sample_100x200))
                                     (width (image sample_100x200))))%Q.
Proof.
  split; [reflexivity|]. split; [reflexivity|]. split; [discriminate|].
  apply (resize_factor_shorter_side (Rng := list Q) (50 # 1) sample_100x200).
  - reflexivity.
  - reflexivity.
  - discriminate.
Defined.

(** C1 (as stated) fails: on the 100 x 200 image the factor of [resize(50)]
    is 1/2, not 50 / max(100, 200) = 1/4. *)
Lemma resize_factor_not_longer_side :
  ~ (forall (size : Q) (d : Sample Q unit) (s : Q),
        (0 < height (image d))%Z -> (0 < width (image d))%Z -> (0 < size)%Q ->
        resize_factor size d = Ok s ->
        (s == size / inject_Z (Z.max (height (image d)) (width (image d))))%Q).
Proof.
  intros Hc.
  specialize (Hc (50 # 1) sample_100x200 (50 # 100)).
  assert (E : ((50 # 100) == (50 # 1) / inject_Z (Z.max 100 200))%Q).
  { apply Hc; reflexivity. }
  vm_compute in E. discriminate E.
Qed.

(** The round trip on the 100 x 200 image through 64 x 32. *)
Lemma resize_to_round_trip_witness :
  (0 < 64)%Z /\ (0 < 32)%Z /\
  (0 < width (image sample_100x200))%Z /\ (0 < height (image sample_100x200))%Z /\
  exists d1 d2 : Sample Q unit,
    resize_to (Rng := list Q) (64, 32)%Z sample_100x200 = Ok d1 /\
    resize_to (Rng := list Q)
      (width (image sample_100x200), height (image sample_100x200)) d1 = Ok d2 /\
    Forall2 box_Qeq (bbox (target d2)) (bbox (target sample_100x200)) /\
    label (target d2) = label (target sample_100x200) /\
    width (image d2) = width (image sample_100x200) /\
    height (image d2) = height (image sample_100x200).
Proof.
  split; [reflexivity|]. split; [reflexivity|].
  split; [reflexivity|]. split; [reflexivity|].
  apply (resize_to_round_trip (Rng := list Q) 64 32 sample_100x200); reflexivity.
Defined.

(* ------------------------------------------------------------------ *)
(** ** [random_crop_padded] over the reals *)

Section CropFacts.
Context {Pix Rng : Type} `{PyRandom R Rng} `{ImageLib R Pix Rng}.

Local Open Scope R_scope.

(** [random_log(1, 1)] is 1 whatever the generator returns. *)
Lemma random_log_unit (g : Rng) :
  random_log (of_int 1) (of_int 1) g = Ok (1, snd (random g)).
Proof.
  unfold random_log, mbind_, lift_result, lift_draw, math_log, uniform, mret.
  simpl.
  destruct (Rlt_dec 0 1) as [_|Hn]; [|exfalso; apply Hn; lra].
  destruct (random g) as [r g']. simpl.
  rewrite ln_1.
  replace (0 + (0 - 0) * r) with 0 by ring.
  rewrite exp_0. reflexivity.
Qed.

Lemma crop_scale_unit (g : Rng) :
  crop_scale (of_int 1, of_int 1) (of_int 1, of_int 1) g
  = Ok ((1, 1), snd (random (snd (random g)))).
Proof.
  unfold crop_scale, mbind_. simpl fst; simpl snd.
  rewrite !random_log_unit.
  unfold lift_result, math_sqrt, truediv, mret. simpl.
  destruct (Rlt_dec 1 0) as [Hn|_]; [exfalso; lra|].
  rewrite sqrt_1.
  destruct (Req_dec_T 1 0) as [Hn|_]; [exfalso; lra|].
  replace (1 * 1) with 1 by ring. replace (1 / 1) with 1 by field.
  reflexivity.
Qed.

(** What [crop_at] does to the boxes when it returns. *)
Lemma crop_at_bbox (dest : Z * Z) (bb si : R) (d d' : Sample R Pix)
    (sxy : R * R) (g g' : Rng) :
  crop_at dest bb si d sxy g = Ok (d', g') ->
  exists x y : R,
    bbox (target d') = box_transform (bbox (target d)) (nneg x, nneg y) sxy.
Proof.
  unfold crop_at, mbind_, lift_result, mret.
  destruct dest as [cw ch], sxy as [sx sy].
  destruct (truediv (of_int cw) sx) as [rw|]; [|discriminate].
  destruct (truediv (of_int ch) sy) as [rh|]; [|discriminate].
  destruct (crop_origin _ _ _ _ _ g) as [[[x y] g1]|]; [|discriminate].
  intros E. injection E as E _. subst d'. exists x, y. reflexivity.
Qed.

(** C5: with [scale_range = (1, 1)] and [aspect_range = (1, 1)] the
    per-axis scale of [random_crop_padded] is exactly (1, 1), for every
    generator and every generator state: the two draws are consumed but do
    not reach the result.  The transform is then [crop_at] with that scale,
    and whenever it returns, the boxes have been translated and scaled by
    (1, 1). *)
Theorem random_crop_padded_unit_scale (dest : Z * Z) (bb si : R)
    (d : Sample R Pix) (g : Rng) :
  let g2 := snd (random (snd (random g))) in
  crop_scale (of_int 1, of_int 1) (of_int 1, of_int 1) g = Ok ((1, 1), g2) /\
  random_crop_padded dest (of_int 1, of_int 1) (of_int 1, of_int 1) bb si d g
    = crop_at dest bb si d (1, 1) g2 /\
  (forall d' g',
      random_crop_padded dest (of_int 1, of_int 1) (of_int 1, of_int 1) bb si d g
        = Ok (d', g') ->
      exists x y : R,
        bbox (target d')
        = box_transform (bbox (target d)) (nneg x, nneg y) (1, 1)).
Proof.
  intros g2.
  assert (E : random_crop_padded dest (of_int 1, of_int 1) (of_int 1, of_int 1)
                bb si d g = crop_at dest bb si d (1, 1) g2).
  { unfold random_crop_padded, mbind_. rewrite crop_scale_unit. reflexivity. }
  split; [apply crop_scale_unit|]. split; [exact E|].
  intros d' g' Hd. rewrite E in Hd. exact (crop_at_bbox _ _ _ _ _ _ _ _ Hd).
Qed.

End CropFacts.

(* ------------------------------------------------------------------ *)
(** ** Instance counts under the geometric transforms *)

Section GeometryFacts.
Context {T Pix Rng : Type} `{PyNum T} `{PyMath T}
        `{PyRandom T Rng} `{ImageLib T Pix Rng}.

Lemma box_transform_length (b : list (Box T)) (o s : T * T) :
  length (box_transform b o s) = length b.
Proof. unfold box_transform. apply length_map. Qed.

Lemma box_transpose_length (b : list (Box T)) :
  length (box_transpose b) = length b.
Proof. unfold box_transpose. apply length_map. Qed.

Lemma box_flip_horizontal_length (b : list (Box T)) (w : T) :
  length (box_flip_horizontal b w) = length b.
Proof. unfold box_flip_horizontal. apply length_map. Qed.

Lemma box_flip_vertical_length (b : list (Box T)) (h : T) :
  length (box_flip_vertical b h) = length b.
Proof. unfold box_flip_vertical. apply length_map. Qed.

(** A record extended with boxes of the old length keeps the invariant. *)
Lemma extend_counts_match (d : Sample T Pix) (img : Image Pix) (b : list (Box T)) :
  counts_match (target d) ->
  length b = length (bbox (target d)) ->
  counts_match (target (extend_image_target d img (target_extend_bbox (target d) b))).
Proof. unfold counts_match. simpl. congruence. Qed.

Lemma scale_counts (s : T) (d : Sample T Pix) :
  counts_match (target d) -> counts_match (target (scale s d)).
Proof.
  intros Hd. unfold scale. apply extend_counts_match; [exact Hd|].
  apply box_transform_length.
Qed.

Lemma resize_counts (size : T) (d d' : Sample T Pix) :
  counts_match (target d) -> resize size d = Ok d' -> counts_match (target d').
Proof.
  intros Hd. unfold resize.
  destruct (resize_factor size d) as [s|]; simpl; [|discriminate].
  intros E. injection E as <-. apply extend_counts_match; [exact Hd|].
  apply box_transform_length.
Qed.

Lemma resize_to_counts (dest : Z * Z) (d d' : Sample T Pix) :
  counts_match (target d) -> resize_to dest d = Ok d' -> counts_match (target d').
Proof.
  intros Hd. unfold resize_to. destruct dest as [cw ch].
  destruct (truediv (of_int cw) _) as [sx|]; simpl; [|discriminate].
  destruct (truediv (of_int ch) _) as [sy|]; simpl; [|discriminate].
  intros E. injection E as <-. apply extend_counts_match; [exact Hd|].
  apply box_transform_length.
Qed.

(** One guarded flip: the draw happens only when the flip is enabled. *)
Lemma flip_draw_result (enabled : bool) (g : Rng) :
  exists c g1,
    (if enabled
     then do! u := lift_draw (uniform (of_int 0) (of_int 1)) in mret (nltb half u)
     else mret false) g = Ok (c, g1).
Proof.
  destruct enabled; unfold mbind_, lift_draw, mret.
  - destruct (uniform (of_int 0) (of_int 1) g) as [u g1]. eauto.
  - eauto.
Qed.

Lemma random_flips_counts (h v t : bool) (d d' : Sample T Pix) (g g' : Rng) :
  counts_match (target d) ->
  random_flips h v t d g = Ok (d', g') -> counts_match (target d').
Proof.
  intros Hd. unfold random_flips.
  unfold mbind_ at 1.
  destruct (flip_draw_result t g) as (c1 & g1 & ->).
  set (p1 := if c1 then _ else _).
  assert (L1 : length (snd p1) = length (bbox (target d))).
  { subst p1. destruct c1; simpl; [apply box_transpose_length | reflexivity]. }
  destruct p1 as [img1 b1]. simpl in L1.
  unfold mbind_ at 1.
  destruct (flip_draw_result v g1) as (c2 & g2 & ->).
  set (p2 := if c2 then _ else _).
  assert (L2 : length (snd p2) = length (bbox (target d))).
  { subst p2. destruct c2; simpl; [rewrite box_flip_vertical_length|]; exact L1. }
  destruct p2 as [img2 b2]. simpl in L2.
  unfold mbind_ at 1.
  destruct (flip_draw_result h g2) as (c3 & g3 & ->).
  set (p3 := if c3 then _ else _).
  assert (L3 : length (snd p3) = length (bbox (target d))).
  { subst p3. destruct c3; simpl; [rewrite box_flip_horizontal_length|]; exact L2. }
  destruct p3 as [img3 b3]. simpl in L3.
  unfold mret. intros E. injection E as <- _.
  apply extend_counts_match; assumption.
Qed.

Lemma crop_at_counts (dest : Z * Z) (bb si : T) (d d' : Sample T Pix)
    (sxy : T * T) (g g' : Rng) :
  counts_match (target d) ->
  crop_at dest bb si d sxy g = Ok (d', g') -> counts_match (target d').
Proof.
  intros Hd. unfold crop_at, mbind_, lift_result, mret.
  destruct dest as [cw ch], sxy as [sx sy].
  destruct (truediv (of_int cw) sx) as [rw|]; [|discriminate].
  destruct (truediv (of_int ch) sy) as [rh|]; [|discriminate].
  destruct (crop_origin _ _ _ _ _ g) as [[[x y] g1]|]; [|discriminate].
  intros E. injection E as <- _. apply extend_counts_match; [exact Hd|].
  apply box_transform_length.
Qed.

Lemma random_crop_padded_counts (dest : Z * Z) (sr ar : T * T) (bb si : T)
    (d d' : Sample T Pix) (g g' : Rng) :
  counts_match (target d) ->
  random_crop_padded dest sr ar bb si d g = Ok (d', g') ->
  counts_match (target d').
Proof.
  intros Hd. unfold random_crop_padded, mbind_.
  destruct (crop_scale sr ar g) as [[sxy g1]|]; [|discriminate].
  apply crop_at_counts. exact Hd.
Qed.

(** C6: a record whose [bbox] and [label] have the same instance count
    keeps that property under every geometric transform ([scale],
    [resize], [resize_to], [random_flips], [random_crop_padded]), whatever
    the generator draws, whenever the transform returns a record. *)
Theorem geometric_preserves_counts (tr : Geometric) (d d' : Sample T Pix)
    (g g' : Rng) :
  counts_match (target d) ->
  apply_geometric tr d g = Ok (d', g') ->
  counts_match (target d').
Proof.
  intros Hd. destruct tr as [s | size | dest | h v t | dest sr ar bb si]; simpl.
  - unfold mret. intros E. injection E as <- _. apply scale_counts, Hd.
  - unfold lift_result. destruct (resize size d) as [d1|] eqn:E1; [|discriminate].
    intros E. injection E as <- _. exact (resize_counts _ _ _ Hd E1).
  - unfold lift_result. destruct (resize_to dest d) as [d1|] eqn:E1; [|discriminate].
    intros E. injection E as <- _. exact (resize_to_counts _ _ _ Hd E1).
  - apply random_flips_counts, Hd.
  - apply random_crop_padded_counts, Hd.
Qed.

(** [scale] and [random_flips] always return. *)
Lemma random_flips_returns (h v t : bool) (d : Sample T Pix) (g : Rng) :
  exists d' g', random_flips h v t d g = Ok (d', g').
Proof.
  unfold random_flips.
  unfold mbind_ at 1. destruct (flip_draw_result t g) as (c1 & g1 & ->).
  destruct (if c1 then _ else _) as [img1 b1].
  unfold mbind_ at 1. destruct (flip_draw_result v g1) as (c2 & g2 & ->).
  destruct (if c2 then _ else _) as [img2 b2].
  unfold mbind_ at 1. destruct (flip_draw_result h g2) as (c3 & g3 & ->).
  destruct (if c3 then _ else _) as [img3 b3].
  unfold mret. eauto.
Qed.

End GeometryFacts.

(* ------------------------------------------------------------------ *)
(** ** [encode_target] *)

(** C9: the record built by [encode_target(encoder)] carries [d.image],
    [d.target] and [d.id] unchanged, its [lengths] is the instance count
    [len(d.target.label)], and only [encoding] is new: the encoder's result
    on [d.image] and [d.target]. *)
Theorem encode_target_passes_through {T Pix Enc : Type} `{Encoder T Pix Enc}
    (d : Sample T Pix) :
  e_image (encode_target d) = image d /\
  e_target (encode_target d) = target d /\
  e_id (encode_target d) = d_id d /\
  lengths (encode_target d) = num_instances (target d) /\
  encoding (encode_target d) = encode (image d) (target d).
Proof. repeat split. Qed.

(* ------------------------------------------------------------------ *)
(** ** The batch producers *)

Section LoaderFacts.

Local Open Scope Z_scope.

(** The fractional part of [e / s], compared with one half. *)
Lemma frac_compare_half (e s : Z) :
  0 < s ->
  Qcompare (inject_Z e / inject_Z s - inject_Z (e / s)) (1 # 2)
  = Z.compare (2 * (e mod s)) s.
Proof.
  intros Hs.
  assert (Hq : (inject_Z e / inject_Z s - inject_Z (e / s)
                == inject_Z (e mod s) / inject_Z s)%Q).
  { rewrite (Z.div_mod e s) at 1 by lia.
    rewrite inject_Z_plus, inject_Z_mult.
    field. intros E. unfold Qeq in E. simpl in E. lia. }
  rewrite Hq.
  destruct s as [|p|p]; try lia.
  unfold Qcompare, Qdiv, Qinv, Qmult, inject_Z. simpl.
  f_equal; lia.
Qed.

(** [round(e / s)] on two [int]s with a positive divisor. *)
Lemma py_round_quotient (e s : Z) :
  0 < s ->
  py_round (inject_Z e / inject_Z s)
  = match Z.compare (2 * (e mod s)) s with
    | Lt => e / s
    | Gt => e / s + 1
    | Eq => if Z.even (e / s) then e / s else e / s + 1
    end.
Proof.
  intros Hs. unfold py_round.
  rewrite <- Zdiv_Qdiv, (frac_compare_half e s Hs). reflexivity.
Qed.

Lemma py_round_comp (q q' : Q) : (q == q')%Q -> py_round q = py_round q'.
Proof.
  intros E. unfold py_round.
  assert (Ef : Qfloor q = Qfloor q') by (rewrite E; reflexivity).
  rewrite Ef.
  assert (Ec : Qcompare (q - inject_Z (Qfloor q')) (1 # 2)
               = Qcompare (q' - inject_Z (Qfloor q')) (1 # 2))
    by (rewrite E; reflexivity).
  rewrite Ec. reflexivity.
Qed.

(** [round] of a float that is an integer. *)
Lemma py_round_Z (m : Z) : py_round (inject_Z m) = m.
Proof.
  unfold py_round. rewrite Qfloor_Z.
  assert (E : (inject_Z m - inject_Z m == 0)%Q) by ring.
  rewrite E. reflexivity.
Qed.

Lemma pow2_nonneg (z : Z) : 0 <= z -> pow2 z = inject_Z (2 ^ z).
Proof. intros Hz. destruct z as [|p|p]; [reflexivity | reflexivity | lia]. Qed.

Lemma pow2_inverse (z : Z) : 0 <= z -> (inject_Z (2 ^ z) * pow2 (- z) == 1)%Q.
Proof.
  intros Hz. destruct z as [|p|p]; [reflexivity | | lia].
  simpl Z.opp. unfold pow2, Qeq. simpl Qnum. simpl Qden.
  rewrite Pos.mul_1_l, Pos2Z.inj_pow. lia.
Qed.

Lemma binary64_comp (q q' : Q) : (q == q')%Q -> binary64 q = binary64 q'.
Proof. intros E. unfold binary64. rewrite (Qred_complete _ _ E). reflexivity. Qed.

Lemma Qle_bool_inject_Z (a b : Z) : Qle_bool (inject_Z a) (inject_Z b) = (a <=? b).
Proof.
  destruct (Z.leb_spec a b) as [H|H].
  - apply Qle_bool_iff. rewrite <- Zle_Qle. exact H.
  - destruct (Qle_bool (inject_Z a) (inject_Z b)) eqn:E; [|reflexivity].
    apply Qle_bool_iff in E. rewrite <- Zle_Qle in E. lia.
Qed.

(** A positive integer below [2 ** 53] is a float. *)
Lemma binary64_small_int (k : Z) :
  0 < k < 2 ^ 53 ->
  exists r, binary64 (inject_Z k) = Some r /\ (r == inject_Z k)%Q.
Proof.
  intros [Hk Hb]. unfold binary64.
  assert (Hred : Qred (inject_Z k) = inject_Z k).
  { apply Qcanon.Qred_identity. simpl. apply Z.gcd_1_r. }
  rewrite Hred.
  assert (Hnz : Qeq_bool (inject_Z k) 0 = false).
  { destruct (Qeq_bool (inject_Z k) 0) eqn:E; [|reflexivity].
    apply Qeq_bool_iff in E. unfold Qeq in E. simpl in E. lia. }
  rewrite Hnz.
  assert (Habs : Qabs (inject_Z k) = inject_Z k).
  { unfold inject_Z, Qabs. rewrite Z.abs_eq by lia. reflexivity. }
  rewrite Habs.
  pose proof (Z.log2_nonneg k) as Hl0.
  assert (Hl : Z.log2 k < 53) by (apply Z.log2_lt_pow2; lia).
  assert (Hlog : ilog2 (inject_Z k) = Z.log2 k).
  { unfold ilog2. simpl Qnum. simpl Qden. change (Z.log2 1) with 0.
    rewrite Z.sub_0_r, (pow2_nonneg _ Hl0), Qle_bool_inject_Z.
    destruct (Z.leb_spec (2 ^ Z.log2 k) k) as [_|Hc]; [reflexivity|].
    pose proof (Z.log2_spec k Hk). lia. }
  rewrite Hlog, Z.max_l by lia.
  set (z := 52 - Z.log2 k).
  assert (Hz : 0 <= z) by (unfold z; lia).
  assert (Hm : py_round (inject_Z k * pow2 z) = k * 2 ^ z).
  { rewrite (pow2_nonneg _ Hz), <- inject_Z_mult. apply py_round_Z. }
  rewrite Hm.
  replace (Z.log2 k - 52) with (- z) by (unfold z; lia).
  assert (Hr : (inject_Z (k * 2 ^ z) * pow2 (- z) == inject_Z k)%Q).
  { rewrite inject_Z_mult, <- Qmult_assoc, (pow2_inverse _ Hz). ring. }
  assert (Hov : Qle_bool (pow2 1024) (inject_Z (k * 2 ^ z) * pow2 (- z)) = false).
  { destruct (Qle_bool (pow2 1024) _) eqn:E; [|reflexivity].
    apply Qle_bool_iff in E. rewrite Hr in E.
    rewrite (pow2_nonneg 1024) in E by lia. rewrite <- Zle_Qle in E.
    assert (2 ^ 53 < 2 ^ 1024) by (apply Z.pow_lt_mono_r; lia). lia. }
  rewrite Hov.
  assert (Hpos : Qle_bool 0 (inject_Z k) = true).
  { apply Qle_bool_iff. change 0%Q with (inject_Z 0). rewrite <- Zle_Qle. lia. }
  rewrite Hpos. eexists. split; [reflexivity | exact Hr].
Qed.

(** The float quotient of two positive [int]s is exact when the divisor
    divides the dividend and the dividend is below [2 ** 53]. *)
Lemma int_truediv_exact (e s : Z) :
  0 < e < 2 ^ 53 -> 0 < s -> e mod s = 0 ->
  exists q, int_truediv e s = Ok q /\ py_round q = e / s.
Proof.
  intros [He Hb] Hs Hm. unfold int_truediv.
  destruct (Z.eqb_spec s 0) as [|_]; [lia|].
  assert (Hes : e = s * (e / s)) by (pose proof (Z.div_mod e s); lia).
  assert (Hk : 0 < e / s < 2 ^ 53) by nia.
  assert (Hq : (inject_Z e / inject_Z s == inject_Z (e / s))%Q).
  { rewrite Hes at 1. rewrite inject_Z_mult. field.
    intros E. unfold Qeq in E. simpl in E. lia. }
  rewrite (binary64_comp _ _ Hq).
  destruct (binary64_small_int (e / s) Hk) as (r & -> & Hr).
  exists r. split; [reflexivity|].
  rewrite (py_round_comp _ _ Hr). apply py_round_Z.
Qed.

Lemma new_DataLoader_ok (w b : Z) (sampler : Sampler) (l : DataLoader) :
  new_DataLoader w b sampler = Ok l ->
  l = mkDataLoader w b sampler /\ 0 <= w /\ 0 < b.
Proof.
  unfold new_DataLoader.
  destruct (Z.ltb_spec w 0); simpl; [discriminate|].
  destruct (Z.leb_spec b 0); simpl; [discriminate|].
  intros E. injection E as <-. repeat split; lia.
Qed.

Lemma new_DataLoader_raise (w b : Z) (sampler : Sampler) (e : exn) :
  new_DataLoader w b sampler = Raise e -> e = ValueError.
Proof.
  unfold new_DataLoader. destruct (_ || _); [|discriminate].
  intros E. injection E as <-. reflexivity.
Qed.

(** The draws of a loader that [load_training] returns, when the float
    quotient is exact. *)
Lemma load_training_draws (e s b w len : Z) (l : DataLoader) :
  0 < e < 2 ^ 53 -> 0 < s -> e mod s = 0 ->
  load_training (mkArgs (Some e) s b w) len = Ok l ->
  draws_per_epoch (dl_sampler l) = Some (e / s).
Proof.
  intros He Hs Hm. unfold load_training. simpl.
  destruct (int_truediv_exact e s He Hs Hm) as (q & -> & Hq). simpl.
  rewrite Hq.
  destruct (Z.eqb_spec e 0) as [|_]; [lia|]. simpl.
  intros E. apply new_DataLoader_ok in E as [-> _]. reflexivity.
Qed.

(** The draws of a loader that [sample_training] returns. *)
Lemma sample_training_draws (e s b w len : Z) (l : DataLoader) :
  sample_training (mkArgs (Some e) s b w) len = Ok l ->
  0 < e /\ s <> 0 /\ b mod s = 0 /\
  l = mkDataLoader w (b / s) (DirectRandomSampler len (e / s)).
Proof.
  unfold sample_training, py_assert, int_mod, int_floordiv. simpl.
  destruct (Z.ltb_spec 0 e) as [He|]; simpl; [|discriminate].
  destruct (Z.eqb_spec s 0) as [|Hs]; simpl; [discriminate|].
  destruct (Z.eqb_spec (b mod s) 0) as [Hb|]; simpl; [|discriminate].
  intros E. apply new_DataLoader_ok in E as [-> _]. auto.
Qed.


(** C2 (as amended): [sample_training] checks eagerly that [batch_size] is
    a multiple of [image_samples]: it raises [AssertionError] when it is
    not, and returns a loader, of batch size
    [batch_size // image_samples], only when it is.  [load_training], the
    path of [DetectionDataset.train], has no such check: it never raises
    [AssertionError], and every loader it returns has [batch_size] as
    given, a multiple of [image_samples] or not. *)
Theorem sample_training_checks_load_training_does_not :
  (forall (args : Args) (len : Z),
      image_samples args <> 0 ->
      batch_size args mod image_samples args <> 0 ->
      exists msg, sample_training args len = Raise (AssertionError msg)) /\
  (forall (args : Args) (len : Z) (l : DataLoader),
      sample_training args len = Ok l ->
      image_samples args <> 0 /\
      batch_size args mod image_samples args = 0 /\
      dl_batch_size l = batch_size args / image_samples args) /\
  (forall (args : Args) (len : Z) (msg : string),
      load_training args len <> Raise (AssertionError msg)) /\
  (forall (args : Args) (len : Z) (l : DataLoader),
      load_training args len = Ok l ->
      dl_batch_size l = batch_size args).
Proof.
  split; [|split; [|split]].
  - intros [eo s b w] len Hs Hb. simpl in *.
    unfold sample_training, py_assert, int_mod. simpl.
    destruct (match eo with Some e => 0 <? e | None => true end); simpl; [|eauto].
    destruct (Z.eqb_spec s 0) as [|_]; [contradiction|]. simpl.
    destruct (Z.eqb_spec (b mod s) 0) as [|_]; [contradiction|]. simpl. eauto.
  - intros [eo s b w] len l. simpl.
    unfold sample_training, py_assert, int_mod, int_floordiv. simpl.
    destruct (match eo with Some e => 0 <? e | None => true end); simpl; [|discriminate].
    destruct (Z.eqb_spec s 0) as [|Hs]; simpl; [discriminate|].
    destruct (Z.eqb_spec (b mod s) 0) as [Hb|_]; simpl; [|discriminate].
    destruct eo as [e|]; simpl.
    + destruct (Z.eqb_spec s 0) as [|_]; [contradiction|]. simpl.
      intros E. apply new_DataLoader_ok in E as [-> _]. auto.
    + intros E. apply new_DataLoader_ok in E as [-> _]. auto.
  - intros [eo s b w] len msg. unfold load_training, int_truediv. simpl.
    destruct eo as [e|]; simpl; [|discriminate].
    destruct (s =? 0); simpl; [discriminate|].
    destruct (binary64 _); simpl; [|discriminate].
    destruct (negb (e =? 0)); simpl.
    + intros E. apply new_DataLoader_raise in E. discriminate E.
    + unfold new_RandomSampler. destruct (len <=? 0); simpl; [discriminate|].
      intros E. apply new_DataLoader_raise in E. discriminate E.
  - intros [eo s b w] len l. unfold load_training. simpl.
    destruct eo as [e|]; simpl; [|discriminate].
    destruct (int_truediv e s) as [q|]; simpl; [|discriminate].
    destruct (negb (e =? 0)); simpl.
    + intros E. apply new_DataLoader_ok in E as [-> _]. reflexivity.
    + destruct (new_RandomSampler len) as [sampler|]; simpl; [|discriminate].
      intros E. apply new_DataLoader_ok in E as [-> _]. reflexivity.
Qed.

End LoaderFacts.



(** C2 (as stated) fails: [load_training] with [batch_size = 3] and
    [image_samples = 2] returns a loader of batch size 3. *)
Lemma load_training_unchecked :
  ~ (forall (args : Args) (len : Z) (l : DataLoader),
        load_training args len = Ok l ->
        (batch_size args mod image_samples args = 0)%Z).
Proof.
  intros Hc.
  specialize (Hc (mkArgs (Some 4%Z) 2 3 0) 10%Z
                 (mkDataLoader 0 3 (RepeatSampler 2 10)) eq_refl).
  discriminate Hc.
Qed.

(* ------------------------------------------------------------------ *)
(** ** [mark_evalated] *)

Section MarkFacts.
Context {T : Type}.

Implicit Types (ds : DetectionDataset T) (files pre post : list string).

(** The loop never adds or removes a key. *)
Lemma mark_evalated_dom files net_id ds :
  dom (images (fst (mark_evalated files net_id ds))) = dom (images ds).
Proof.
  revert ds. induction files as [|k rest IH]; intros ds; simpl; [reflexivity|].
  case_bool_decide; [|reflexivity].
  rewrite IH. simpl. apply dom_alter_L.
Qed.

(** How the call ends: normally, or with the assertion on some id. *)
Lemma mark_evalated_outcome files net_id ds :
  snd (mark_evalated files net_id ds) = Ok tt \/
  exists k, k ∈ files /\ (k ∉ dom (images ds)) /\
    snd (mark_evalated files net_id ds)
    = Raise (AssertionError ("mark_evaluated, invalid file: " +:+ k)).
Proof.
  revert ds. induction files as [|k rest IH]; intros ds; simpl; [by left|].
  case_bool_decide as Hk.
  - destruct (IH (mkDataset (alter (set_evaluated net_id) k (images ds)) (classes ds)))
      as [Hok | (j & Hj & Hnj & Hr)]; [by left|].
    right. exists j. simpl in Hnj. rewrite dom_alter_L in Hnj.
    split; [set_solver|]. split; [exact Hnj | exact Hr].
  - right. exists k. split; [set_solver|]. split; [exact Hk | reflexivity].
Qed.

Lemma mark_evalated_ok files net_id ds :
  (forall k, k ∈ files -> k ∈ dom (images ds)) ->
  snd (mark_evalated files net_id ds) = Ok tt.
Proof.
  revert ds. induction files as [|k rest IH]; intros ds Hall; simpl; [reflexivity|].
  case_bool_decide as Hk.
  - apply IH. intros j Hj. simpl. rewrite dom_alter_L. apply Hall. set_solver.
  - exfalso. apply Hk, Hall. set_solver.
Qed.

Lemma mark_evalated_ok_inv files net_id ds :
  snd (mark_evalated files net_id ds) = Ok tt ->
  forall k, k ∈ files -> k ∈ dom (images ds).
Proof.
  revert ds. induction files as [|j rest IH]; intros ds Hok k Hk.
  - set_solver.
  - simpl in Hok. case_bool_decide as Hj; [|discriminate].
    apply elem_of_cons in Hk as [->|Hk]; [exact Hj|].
    specialize (IH _ Hok k Hk). simpl in IH.
    rewrite dom_alter_L in IH. exact IH.
Qed.

(** C7: [mark_evalated(files, net_id)] raises the assertion exactly when
    some id of [files] is not a key of [images]; otherwise it returns
    normally.  In particular [mark_evalated(['A'], net_id=7)] on a dataset
    without key ['A'] raises it. *)
Theorem mark_evalated_raises_iff files net_id ds :
  ((exists msg, snd (mark_evalated files net_id ds) = Raise (AssertionError msg))
   <-> (exists k, k ∈ files /\ (k ∉ dom (images ds)))) /\
  (snd (mark_evalated files net_id ds) = Ok tt
   <-> (forall k, k ∈ files -> k ∈ dom (images ds))) /\
  ("A" ∉ dom (images ds) ->
   snd (mark_evalated ["A"] 7 ds)
   = Raise (AssertionError "mark_evaluated, invalid file: A")).
Proof.
  split; [|split].
  - split.
    + intros [msg Hr].
      destruct (mark_evalated_outcome files net_id ds) as [Hok | (k & Hk & Hnk & _)].
      * rewrite Hok in Hr. discriminate.
      * eauto.
    + intros (k & Hk & Hnk).
      destruct (mark_evalated_outcome files net_id ds) as [Hok | (j & _ & _ & Hr)].
      * exfalso. apply Hnk. exact (mark_evalated_ok_inv _ _ _ Hok k Hk).
      * eauto.
  - split; [apply mark_evalated_ok_inv | apply mark_evalated_ok].
  - intros HA. simpl. case_bool_decide; [contradiction | reflexivity].
Qed.

Lemma mark_evalated_cons k rest net_id ds :
  mark_evalated (k :: rest) net_id ds
  = if bool_decide (k ∈ dom (images ds))
    then mark_evalated rest net_id
           (mkDataset (alter (set_evaluated net_id) k (images ds)) (classes ds))
    else (ds, Raise (AssertionError ("mark_evaluated, invalid file: " +:+ k))).
Proof. reflexivity. Qed.

(** The records after a prefix of present ids has been marked. *)
Lemma mark_evalated_prefix pre k post net_id ds :
  (forall j, j ∈ pre -> j ∈ dom (images ds)) ->
  k ∉ dom (images ds) ->
  snd (mark_evalated (pre ++ k :: post) net_id ds)
  = Raise (AssertionError ("mark_evaluated, invalid file: " +:+ k)) /\
  classes (fst (mark_evalated (pre ++ k :: post) net_id ds)) = classes ds /\
  forall j,
    images (fst (mark_evalated (pre ++ k :: post) net_id ds)) !! j
    = if decide (j ∈ pre)
      then set_evaluated net_id <$> images ds !! j
      else images ds !! j.
Proof.
  revert ds. induction pre as [|k0 pre IH]; intros ds Hpre Hk.
  - rewrite app_nil_l, mark_evalated_cons.
    rewrite bool_decide_eq_false_2 by exact Hk.
    split; [reflexivity|]. split; [reflexivity|].
    intros j. rewrite decide_False by apply not_elem_of_nil. reflexivity.
  - assert (Hhead : k0 ∈ dom (images ds)) by (apply Hpre, elem_of_cons; by left).
    assert (Htail : forall j, j ∈ pre -> j ∈ dom (images ds))
      by (intros j Hj; apply Hpre, elem_of_cons; by right).
    rewrite <- app_comm_cons, mark_evalated_cons.
    rewrite bool_decide_eq_true_2 by exact Hhead.
    set (ds1 := mkDataset (alter (set_evaluated net_id) k0 (images ds)) (classes ds)).
    destruct (IH ds1) as (Hr & Hc & Hl).
    { intros j Hj. subst ds1. simpl. rewrite dom_alter_L. apply Htail, Hj. }
    { subst ds1. simpl. rewrite dom_alter_L. exact Hk. }
    split; [exact Hr|]. split; [exact Hc|].
    intros j. rewrite Hl. subst ds1. simpl.
    rewrite lookup_alter.
    destruct (decide (j ∈ pre)) as [Hj|Hj]; destruct (decide (k0 = j)) as [->|Hne].
    + rewrite decide_True by (apply elem_of_cons; by left).
      destruct (images ds !! j); reflexivity.
    + rewrite decide_True by (apply elem_of_cons; by right). reflexivity.
    + rewrite decide_True by (apply elem_of_cons; by left). reflexivity.
    + rewrite decide_False by (apply not_elem_of_cons; split; [congruence | exact Hj]).
      reflexivity.
Qed.

(** C10: when [mark_evalated] fails on an id that is missing, the ids
    before it in [files] (all present) have already been marked: the call
    raises the assertion naming the missing id, every record named by an
    earlier id has [evaluated = net_id] and is otherwise as before, every
    other record is untouched, and nothing is rolled back. *)
Theorem mark_evalated_not_atomic pre k post net_id ds :
  (forall j, j ∈ pre -> j ∈ dom (images ds)) ->
  k ∉ dom (images ds) ->
  snd (mark_evalated (pre ++ k :: post) net_id ds)
  = Raise (AssertionError ("mark_evaluated, invalid file: " +:+ k)) /\
  (forall j, j ∈ pre ->
     exists i, images ds !! j = Some i /\
       images (fst (mark_evalated (pre ++ k :: post) net_id ds)) !! j
       = Some (set_evaluated net_id i) /\
       evaluated (set_evaluated net_id i) = Some net_id) /\
  (forall j, j ∉ pre ->
     images (fst (mark_evalated (pre ++ k :: post) net_id ds)) !! j
     = images ds !! j) /\
  classes (fst (mark_evalated (pre ++ k :: post) net_id ds)) = classes ds.
Proof.
  intros Hpre Hk.
  destruct (mark_evalated_prefix pre k post net_id ds Hpre Hk) as (Hr & Hc & Hl).
  split; [exact Hr|]. split; [|split; [|exact Hc]].
  - intros j Hj.
    destruct (proj1 (elem_of_dom (images ds) j) (Hpre j Hj)) as [i Hi].
    exists i. split; [exact Hi|]. split; [|reflexivity].
    rewrite Hl, decide_True by exact Hj. rewrite Hi. reflexivity.
  - intros j Hj. rewrite Hl, decide_False by exact Hj. reflexivity.
Qed.

End MarkFacts.

(* ------------------------------------------------------------------ *)
(** ** [add_noise] *)

Section AddNoiseFacts.
Context {T Rng : Type} `{PyNum T} `{PyRandom T Rng} `{BoxLib T}.

Local Open Scope Z_scope.

(** The instance count that a list of records adds to [totals.n]. *)
Lemma add_image_noise_totals (noise offset : T) (i : ImageInfo T)
    (totals : Totals T) (g : Rng) :
  snd (fst (add_image_noise noise offset i totals g))
  = if bool_decide (category i = "train")
    then totals_add totals
           (iou_sum (bbox (info_target
                             (fst (fst (add_image_noise noise offset i totals g)))))
                    (bbox (info_target i)))
           (Z.of_nat (table_size (info_target i)))
    else totals.
Proof.
  unfold add_image_noise.
  destruct (bool_decide (category i = "train")).
  - destruct (randn2 (table_size (info_target i)) g) as [r1 g1].
    destruct (randn2 (table_size (info_target i)) g1) as [r2 g2].
    reflexivity.
  - reflexivity.
Qed.

Lemma add_noise_items_n (noise offset : T) (items : list (string * ImageInfo T))
    (totals : Totals T) (g : Rng) :
  tot_n (snd (fst (add_noise_items noise offset items totals g)))
  = tot_n totals
    + foldr (fun i acc => Z.of_nat (table_size (info_target i)) + acc) 0
        (List.filter (fun i => bool_decide (category i = "train")) (snd <$> items)).
Proof.
  revert totals g. induction items as [|[k i] rest IH]; intros totals g; simpl.
  - lia.
  - pose proof (add_image_noise_totals noise offset i totals g) as Ht.
    destruct (add_image_noise noise offset i totals g) as [[i' totals1] g1].
    simpl in Ht.
    specialize (IH totals1 g1).
    destruct (add_noise_items noise offset rest totals1 g1) as [[rest' totals2] g2].
    simpl in IH |- *. rewrite IH, Ht.
    change (list_fmap (string * ImageInfo T)%type (ImageInfo T) snd rest)
      with (snd <$> rest).
    destruct (bool_decide (category i = "train")); simpl; lia.
Qed.

(** Without a training image the [iou] total is still the [int] 0. *)
Lemma add_noise_items_int_zero (noise offset : T)
    (items : list (string * ImageInfo T)) (totals : Totals T) (g : Rng) :
  List.filter (fun i => bool_decide (category i = "train")) (snd <$> items) = [] ->
  snd (fst (add_noise_items noise offset items totals g)) = totals.
Proof.
  revert totals g. induction items as [|[k i] rest IH]; intros totals g; simpl.
  - reflexivity.
  - intros Hf.
    pose proof (add_image_noise_totals noise offset i totals g) as Ht.
    destruct (add_image_noise noise offset i totals g) as [[i' totals1] g1].
    simpl in Ht.
    destruct (bool_decide (category i = "train")); [discriminate Hf|].
    specialize (IH totals1 g1 Hf).
    destruct (add_noise_items noise offset rest totals1 g1) as [[rest' totals2] g2].
    simpl in IH |- *. congruence.
Qed.

Lemma add_noise_report (noise offset : T) (self : DetectionDataset T) (g : Rng) :
  snd (add_noise noise offset self g)
  = mean_iou (add_noise_totals noise offset self g).
Proof.
  unfold add_noise, add_noise_totals.
  destruct (add_noise_items _ _ _ _ g) as [[items totals] g']. reflexivity.
Qed.

(** C4: when the images tagged ['train'] have no instances in total,
    [add_noise] reaches its report with [totals.n = 0] and evaluates
    [totals.iou / totals.n] all the same: the division has a zero divisor.
    It raises [ZeroDivisionError] when there is no training image at all
    (the dividend is still an [int]), and otherwise the quotient is
    non-finite; in no case is a mean produced. *)
Theorem add_noise_divides_by_zero (noise offset : T) (self : DetectionDataset T)
    (g : Rng) :
  train_instances self = 0 ->
  tot_n (add_noise_totals noise offset self g) = 0 /\
  snd (add_noise noise offset self g)
  = mean_iou (add_noise_totals noise offset self g) /\
  (snd (add_noise noise offset self g) = Raise ZeroDivisionError \/
   exists v, snd (add_noise noise offset self g) = Ok (NonFinite v)) /\
  (train_images self = [] ->
   snd (add_noise noise offset self g) = Raise ZeroDivisionError).
Proof.
  intros Hz.
  assert (Hn : tot_n (add_noise_totals noise offset self g) = 0).
  { unfold add_noise_totals. rewrite add_noise_items_n. simpl. exact Hz. }
  split; [exact Hn|]. split; [apply add_noise_report|].
  rewrite add_noise_report. unfold mean_iou. rewrite Hn. simpl.
  split.
  - destruct (tot_iou _); eauto.
  - intros Hnone. unfold add_noise_totals.
    rewrite add_noise_items_int_zero by exact Hnone. reflexivity.
Qed.

End AddNoiseFacts.

(* ------------------------------------------------------------------ *)
(** ** The properties on concrete records *)

(** [scale(2)] on the 100 x 200 record keeps one box for one label. *)
Lemma geometric_preserves_counts_witness :
  counts_match (target sample_R) /\
  apply_geometric (Rng := list R) (GScale 2%R) sample_R []
  = Ok (scale (Rng := list R) 2%R sample_R, []) /\
  counts_match (target (scale (Rng := list R) 2%R sample_R)).
Proof.
  split; [reflexivity|]. split; [reflexivity|].
  apply (geometric_preserves_counts (Rng := list R) (GScale 2%R) sample_R
           (scale (Rng := list R) 2%R sample_R) [] []).
  - reflexivity.
  - reflexivity.
Defined.

(** [mark_evalated(['B', 'C', 'A'], 7)] on the dataset with keys ['B'] and
    ['C']: the call fails on ['A'] after ['B'] and ['C'] have been
    marked. *)
Lemma mark_evalated_not_atomic_witness :
  images (fst (mark_evalated ["B"; "C"; "A"] 7 dataset_BC)) !! "B"
  = Some (set_evaluated 7 info_B) /\
  images (fst (mark_evalated ["B"; "C"; "A"] 7 dataset_BC)) !! "C"
  = Some (set_evaluated 7 info_C) /\
  snd (mark_evalated ["B"; "C"; "A"] 7 dataset_BC)
  = Raise (AssertionError "mark_evaluated, invalid file: A").
Proof.
  assert (Hpre : forall j, j ∈ ["B"; "C"] -> j ∈ dom (images dataset_BC)).
  { intros j Hj. apply elem_of_dom.
    apply elem_of_cons in Hj as [-> | Hj]; [vm_compute; eauto|].
    apply elem_of_cons in Hj as [-> | Hj]; [vm_compute; eauto|].
    apply elem_of_nil in Hj. contradiction. }
  assert (HA : "A" ∉ dom (images dataset_BC)).
  { apply not_elem_of_dom. vm_compute. reflexivity. }
  destruct (mark_evalated_not_atomic ["B"; "C"] "A" [] 7 dataset_BC Hpre HA)
    as (Hr & _ & _ & _).
  split; [vm_compute; reflexivity|]. split; [vm_compute; reflexivity|].
  exact Hr.
Defined.

(** [add_noise] on the dataset whose only training image has no instance:
    the divisor of the report is 0. *)
Lemma add_noise_divides_by_zero_witness :
  train_instances dataset_BC = 0%Z /\
  tot_n (add_noise_totals (Rng := list Q) (1 # 10) (0 # 1) dataset_BC []) = 0%Z /\
  snd (add_noise (Rng := list Q) (1 # 10) (0 # 1) dataset_BC [])
  = mean_iou (add_noise_totals (Rng := list Q) (1 # 10) (0 # 1) dataset_BC []) /\
  (snd (add_noise (Rng := list Q) (1 # 10) (0 # 1) dataset_BC [])
   = Raise ZeroDivisionError \/
   exists v, snd (add_noise (Rng := list Q) (1 # 10) (0 # 1) dataset_BC [])
             = Ok (NonFinite v)) /\
  (train_images dataset_BC = [] ->
   snd (add_noise (Rng := list Q) (1 # 10) (0 # 1) dataset_BC [])
   = Raise ZeroDivisionError).
Proof.
  split; [vm_compute; reflexivity|].
  apply (add_noise_divides_by_zero (Rng := list Q) (1 # 10) (0 # 1) dataset_BC []).
  vm_compute. reflexivity.
Defined.

(** On the empty dataset the report raises. *)
Example add_noise_empty_raises :
  snd (add_noise (Rng := list Q) (1 # 10) (0 # 1) (mkDataset ∅ []) [])
  = Raise ZeroDivisionError.
Proof. vm_compute. reflexivity. Qed.

(** With the instance-free training image the quotient is non-finite. *)
Example add_noise_no_instances_non_finite :
  exists v, snd (add_noise (Rng := list Q) (1 # 10) (0 # 1) dataset_BC [])
            = Ok (NonFinite v).
Proof. eexists. vm_compute. reflexivity. Qed.

(** [mark_evalated(['A'], net_id=7)] on a dataset without key ['A']. *)
Example mark_evalated_missing_A :
  snd (mark_evalated ["A"] 7 dataset_BC)
  = Raise (AssertionError "mark_evaluated, invalid file: A").
Proof. vm_compute. reflexivity. Qed.

(** [sample_training] with [batch_size = 3] and [image_samples = 2]. *)
Example sample_training_rejects_3_2 :
  sample_training (mkArgs (Some 4%Z) 2 3 0) 10
  = Raise (AssertionError "batch_size should be a multiple of image_samples").
Proof. reflexivity. Qed.

(** [load_training] with [epoch_size] unset fails on [None / image_samples]. *)
Example load_training_unset_epoch :
  load_training (mkArgs None 2 4 0) 10 = Raise TypeError.
Proof. reflexivity. Qed.

(** [resize_to((64, 32))] on the 100 x 200 record. *)
Example resize_to_64x32 :
  bbox (target (match resize_to (Rng := list Q) (64, 32)%Z sample_100x200 with
                | Ok d => d
                | Raise _ => sample_100x200
                end))
  = [mkBox ((10 + 0) * (64 / 200))%Q ((20 + 0) * (32 / 100))%Q
           ((30 + 0) * (64 / 200))%Q ((40 + 0) * (32 / 100))%Q].
Proof. reflexivity. Qed.

(* ================================================================== *)
(** * Further properties of the code *)

(* ------------------------------------------------------------------ *)
(** ** [is_responsible_bbox] over the rationals *)

Section ResponsibleFacts.
Context {Pix : Type}.

Local Open Scope Q_scope.

Lemma nltb_Q_true (a b : Q) : nltb a b = true <-> a < b.
Proof.
  simpl. destruct (Qle_bool b a) eqn:E; simpl.
  - apply Qle_bool_iff in E. split; [discriminate|]. intros Hlt.
    exfalso. exact (Qlt_not_le _ _ Hlt E).
  - split; [intros _|reflexivity]. apply Qnot_le_lt. intros Hle.
    apply Qle_bool_iff in Hle. congruence.
Qed.

Lemma nltb_Q_false (a b : Q) : nltb a b = false <-> b <= a.
Proof.
  simpl. destruct (Qle_bool b a) eqn:E; simpl.
  - apply Qle_bool_iff in E. split; [intros _; exact E | reflexivity].
  - split; [discriminate|]. intros Hle. apply Qle_bool_iff in Hle. congruence.
Qed.

Lemma nzero_Q_true (q : Q) : nzero q = true <-> q == 0.
Proof. simpl. apply Qeq_bool_iff. Qed.

Lemma py_abs_Q (x : Q) : py_abs x == Qabs x.
Proof.
  unfold py_abs. destruct (nltb x (of_int 0)) eqn:E.
  - apply nltb_Q_true in E. change (of_int 0) with 0 in E.
    rewrite Qabs_neg by (apply Qlt_le_weak; exact E).
    unfold nneg. simpl. ring.
  - apply nltb_Q_false in E. change (of_int 0) with 0 in E.
    rewrite Qabs_pos by exact E. reflexivity.
Qed.

(** On non-negative sides, [(a / b) > 5] fails exactly when [a <= 5 b],
    the zero divisor included. *)
Lemma ratio_exceeds_Q (a b : Q) :
  0 <= a -> 0 <= b ->
  (ratio_exceeds a b (of_int 5) = false <-> a <= 5 * b).
Proof.
  intros Ha Hb. unfold ratio_exceeds.
  destruct (nzero b) eqn:Ez.
  - apply nzero_Q_true in Ez. rewrite nltb_Q_false. change (of_int 0) with 0.
    rewrite Ez. split; intros Hle; Lqa.lra.
  - assert (Hb' : 0 < b).
    { apply Qle_lteq in Hb as [Hlt | Heq]; [exact Hlt|].
      symmetry in Heq. apply nzero_Q_true in Heq. congruence. }
    rewrite nltb_Q_false. change (of_int 5) with 5. simpl ndiv.
    split; intros Hle.
    + apply (Qmult_le_compat_r _ _ b) in Hle; [|exact Hb].
      assert (E : a / b * b == a) by (field; Lqa.lra).
      rewrite E in Hle. exact Hle.
    + apply Qle_shift_div_r; [exact Hb' | exact Hle].
Qed.

(** [is_responsible_bbox] accepts a box exactly when its area is at most
    1000, its corners lie in the frame ([x1 >= 0], [x2 <= width],
    [y1 >= 0], [y2 <= height]) and neither side is more than five times
    the other.  A box of zero width and height passes the ratio test. *)
Theorem is_responsible_bbox_iff (b : Box Q) (frame : Image Pix) :
  is_responsible_bbox b frame = true <->
  Qabs (y2 b - y1 b) * Qabs (x2 b - x1 b) <= 1000 /\
  0 <= x1 b /\ x2 b <= inject_Z (width frame) /\
  0 <= y1 b /\ y2 b <= inject_Z (height frame) /\
  Qabs (x2 b - x1 b) <= 5 * Qabs (y2 b - y1 b) /\
  Qabs (y2 b - y1 b) <= 5 * Qabs (x2 b - x1 b).
Proof.
  unfold is_responsible_bbox.
  set (h := py_abs (nsub (y2 b) (y1 b))).
  set (w := py_abs (nsub (x2 b) (x1 b))).
  assert (Hh : h == Qabs (y2 b - y1 b)) by apply py_abs_Q.
  assert (Hw : w == Qabs (x2 b - x1 b)) by apply py_abs_Q.
  assert (Hh0 : 0 <= h) by (rewrite Hh; apply Qabs_nonneg).
  assert (Hw0 : 0 <= w) by (rewrite Hw; apply Qabs_nonneg).
  rewrite <- Hh, <- Hw.
  pose proof (ratio_exceeds_Q w h Hw0 Hh0) as Rw.
  pose proof (ratio_exceeds_Q h w Hh0 Hw0) as Rh.
  destruct (nltb (of_int 1000) (nmul h w)) eqn:Ea.
  { apply nltb_Q_true in Ea. change (of_int 1000) with 1000 in Ea. simpl nmul in Ea.
    split; [discriminate|]. intros (Hc & _). exfalso. exact (Qlt_not_le _ _ Ea Hc). }
  apply nltb_Q_false in Ea. change (of_int 1000) with 1000 in Ea. simpl nmul in Ea.
  destruct (nltb (x1 b) (of_int 0)) eqn:E1; cbn [orb].
  { apply nltb_Q_true in E1. change (of_int 0) with 0 in E1.
    split; [discriminate|]. intros (_ & Hc & _). exfalso. exact (Qlt_not_le _ _ E1 Hc). }
  apply nltb_Q_false in E1. change (of_int 0) with 0 in E1.
  destruct (nltb (of_int (width frame)) (x2 b)) eqn:E2; cbn [orb].
  { apply nltb_Q_true in E2. change (of_int (width frame)) with (inject_Z (width frame)) in E2.
    split; [discriminate|]. intros (_ & _ & Hc & _). exfalso. exact (Qlt_not_le _ _ E2 Hc). }
  apply nltb_Q_false in E2.
  destruct (nltb (y1 b) (of_int 0)) eqn:E3; cbn [orb].
  { apply nltb_Q_true in E3. change (of_int 0) with 0 in E3.
    split; [discriminate|]. intros (_ & _ & _ & Hc & _). exfalso.
    exact (Qlt_not_le _ _ E3 Hc). }
  apply nltb_Q_false in E3. change (of_int 0) with 0 in E3.
  destruct (nltb (of_int (height frame)) (y2 b)) eqn:E4; cbn [orb].
  { apply nltb_Q_true in E4.
    split; [discriminate|]. intros (_ & _ & _ & _ & Hc & _). exfalso.
    exact (Qlt_not_le _ _ E4 Hc). }
  apply nltb_Q_false in E4.
  destruct (ratio_exceeds w h (of_int 5)) eqn:E5; cbn [orb].
  { split; [discriminate|]. intros (_ & _ & _ & _ & _ & Hc & _).
    pose proof (proj2 Rw Hc) as Hf. discriminate Hf. }
  destruct (ratio_exceeds h w (of_int 5)) eqn:E6.
  { split; [discriminate|]. intros (_ & _ & _ & _ & _ & _ & Hc).
    pose proof (proj2 Rh Hc) as Hf. discriminate Hf. }
  split; [intros _|reflexivity].
  repeat split; try assumption.
  - apply Rw. reflexivity.
  - apply Rh. reflexivity.
Qed.

(** Over the rationals, an accepted box is small on both sides: width and
    height squared are at most 5000 (so each side is below 71 pixels). *)
Theorem is_responsible_bbox_sides (b : Box Q) (frame : Image Pix) :
  is_responsible_bbox b frame = true ->
  Qabs (x2 b - x1 b) * Qabs (x2 b - x1 b) <= 5000 /\
  Qabs (y2 b - y1 b) * Qabs (y2 b - y1 b) <= 5000.
Proof.
  unfold is_responsible_bbox.
  set (h := py_abs (nsub (y2 b) (y1 b))).
  set (w := py_abs (nsub (x2 b) (x1 b))).
  assert (Hh : h == Qabs (y2 b - y1 b)) by apply py_abs_Q.
  assert (Hw : w == Qabs (x2 b - x1 b)) by apply py_abs_Q.
  assert (Hh0 : 0 <= h) by (rewrite Hh; apply Qabs_nonneg).
  assert (Hw0 : 0 <= w) by (rewrite Hw; apply Qabs_nonneg).
  rewrite <- Hh, <- Hw.
  pose proof (ratio_exceeds_Q w h Hw0 Hh0) as Rw.
  pose proof (ratio_exceeds_Q h w Hh0 Hw0) as Rh.
  destruct (nltb (of_int 1000) (nmul h w)) eqn:Ea; [discriminate|].
  apply nltb_Q_false in Ea. change (of_int 1000) with 1000 in Ea. simpl nmul in Ea.
  destruct (_ || _ || _ || _); [discriminate|].
  destruct (ratio_exceeds w h (of_int 5)) eqn:E5; [discriminate|].
  destruct (ratio_exceeds h w (of_int 5)) eqn:E6; [discriminate|].
  intros _.
  assert (Lw : w <= 5 * h) by (apply Rw; reflexivity).
  assert (Lh : h <= 5 * w) by (apply Rh; reflexivity).
  split; Lqa.nra.
Qed.

End ResponsibleFacts.

(* ------------------------------------------------------------------ *)
(** ** Time codes and the points of [detect_seals] *)

Lemma timecode_formula (i : nat) :
  timecode i = ((250 * Z.of_nat i + 3) / 6)%Z.
Proof.
  unfold timecode, TIMELAPSE_FPS.
  rewrite (py_round_comp _ (inject_Z (125 * Z.of_nat i) / inject_Z 3)).
  2:{ rewrite inject_Z_mult. field. }
  rewrite py_round_quotient by lia.
  destruct (Z.compare_spec (2 * ((125 * Z.of_nat i) mod 3)) 3) as [E|E|E].
  - exfalso. lia.
  - Z.div_mod_to_equations. lia.
  - Z.div_mod_to_equations. lia.
Qed.

(** The time code of frame [i] is the millisecond nearest to [i / 24]
    seconds; time codes grow by at least 41 ms from one frame to the next,
    so no two frames share one; and every 24th frame falls on a whole
    second. *)
Theorem timecode_spacing (i : nat) :
  (-1 <= 3 * timecode i - 125 * Z.of_nat i <= 1)%Z /\
  (timecode i + 41 <= timecode (S i))%Z /\
  timecode (24 * i) = (1000 * Z.of_nat i)%Z.
Proof.
  rewrite !timecode_formula.
  replace (Z.of_nat (S i)) with (Z.of_nat i + 1)%Z by lia.
  replace (Z.of_nat (24 * i)) with (24 * Z.of_nat i)%Z by lia.
  split; [|split]; Z.div_mod_to_equations; lia.
Qed.

Section DetectSealsFacts.
Context {Pix : Type}.
Variable imread : string -> Image Pix.
Variable evaluate_image : Image Pix -> list (Box Q).

Lemma detect_seals_from_elem (p : Q * Q * Z) (i0 : nat) (files : list string) :
  p ∈ detect_seals_from imread evaluate_image i0 files <->
  exists (i : nat) (img : string) (b : Box Q),
    files !! i = Some img /\
    b ∈ evaluate_image (imread img) /\
    is_responsible_bbox b (imread img) = true /\
    p = (((x1 b + x2 b) / inject_Z 2)%Q, ((y1 b + y2 b) / inject_Z 2)%Q,
         timecode (i0 + i)).
Proof.
  revert i0. induction files as [|img rest IH]; intros i0; simpl.
  - split; [intros Hp; apply elem_of_nil in Hp; contradiction|].
    intros (i & img & b & Hi & _). rewrite lookup_nil in Hi. discriminate.
  - rewrite elem_of_app, IH. unfold img_points. split.
    + intros [Hp | (i & img' & b & Hi & Hb & Hr & ->)].
      * apply list_elem_of_In, in_map_iff in Hp as (b & <- & Hb).
        apply filter_In in Hb as [Hb Hr].
        exists 0%nat, img, b. rewrite Nat.add_0_r.
        split; [reflexivity|]. split; [apply list_elem_of_In, Hb|]. split; [exact Hr|].
        reflexivity.
      * exists (S i), img', b. split; [exact Hi|]. split; [exact Hb|].
        split; [exact Hr|]. f_equal. f_equal. lia.
    + intros (i & img' & b & Hi & Hb & Hr & ->).
      destruct i as [|i]; simpl in Hi.
      * injection Hi as <-. left. rewrite Nat.add_0_r.
        apply list_elem_of_In, in_map_iff. exists b. split; [reflexivity|].
        apply filter_In. split; [apply list_elem_of_In, Hb | exact Hr].
      * right. exists i, img', b. split; [exact Hi|]. split; [exact Hb|].
        split; [exact Hr|]. f_equal. f_equal. lia.
Qed.

(** The points of [detect_seals] are exactly the centres of the boxes that
    [is_responsible_bbox] accepts, each with the time code of its frame's
    position in [image_files]; a frame without accepted boxes adds
    nothing. *)
Theorem detect_seals_points (p : Q * Q * Z) (image_files : list string) :
  p ∈ detect_seals imread evaluate_image image_files <->
  exists (i : nat) (img : string) (b : Box Q),
    image_files !! i = Some img /\
    b ∈ evaluate_image (imread img) /\
    is_responsible_bbox b (imread img) = true /\
    p = (((x1 b + x2 b) / inject_Z 2)%Q, ((y1 b + y2 b) / inject_Z 2)%Q, timecode i).
Proof. unfold detect_seals. apply (detect_seals_from_elem p 0 image_files). Qed.

Lemma detect_seals_csv_from_points (i0 : nat) (files : list string) :
  fst (detect_seals_csv_from imread evaluate_image i0 files)
  = map (fun '(x, y, t) => (Q_to_int x, Q_to_int y, t))
        (detect_seals_from imread evaluate_image i0 files) /\
  snd (detect_seals_csv_from imread evaluate_image i0 files)
  = csv_rows (fst (detect_seals_csv_from imread evaluate_image i0 files)).
Proof.
  revert i0. induction files as [|img rest IH]; intros i0; simpl.
  - split; reflexivity.
  - destruct (IH (S i0)) as [IH1 IH2].
    destruct (detect_seals_csv_from imread evaluate_image (S i0) rest)
      as [points rows].
    simpl in *. split.
    + rewrite map_app, IH1. f_equal.
      unfold img_points_int, img_points. rewrite map_map. reflexivity.
    + unfold csv_rows in *. rewrite map_app, IH2. reflexivity.
Qed.

(** [detect_seals_with_CSV] returns the points of [detect_seals] with both
    coordinates truncated to integers, in the same order, and writes the
    header followed by exactly one row per returned point. *)
Theorem detect_seals_with_CSV_points (image_files : list string) :
  fst (detect_seals_with_CSV imread evaluate_image image_files)
  = map (fun '(x, y, t) => (Q_to_int x, Q_to_int y, t))
        (detect_seals imread evaluate_image image_files) /\
  snd (detect_seals_with_CSV imread evaluate_image image_files)
  = [CStr "X pos"; CStr "Y pos"; CStr "Time (ms)"]
    :: csv_rows (fst (detect_seals_with_CSV imread evaluate_image image_files)) /\
  length (snd (detect_seals_with_CSV imread evaluate_image image_files))
  = S (length (detect_seals imread evaluate_image image_files)).
Proof.
  unfold detect_seals_with_CSV, detect_seals.
  destruct (detect_seals_csv_from_points 0 image_files) as [H1 H2].
  destruct (detect_seals_csv_from imread evaluate_image 0 image_files)
    as [points rows].
  simpl in *. subst rows. split; [exact H1|]. split; [reflexivity|].
  unfold csv_rows. rewrite length_map, H1, length_map. reflexivity.
Qed.

End DetectSealsFacts.

(* ------------------------------------------------------------------ *)
(** ** More on the transforms *)

Section ScaleFacts.
Context {Pix Rng : Type} `{ImageLib Q Pix Rng}.

Local Open Scope Q_scope.

(** [scale(a)] followed by [scale(b)] moves every box where [scale(a * b)]
    moves it, [scale(1)] leaves every box in place, and the labels are
    never touched. *)
Theorem scale_composes (a b : Q) (d : Sample Q Pix) :
  Forall2 box_Qeq (bbox (target (scale b (scale a d))))
                  (bbox (target (scale (a * b) d))) /\
  Forall2 box_Qeq (bbox (target (scale 1 d))) (bbox (target d)) /\
  label (target (scale b (scale a d))) = label (target d).
Proof.
  unfold scale. simpl. split; [|split; [|reflexivity]].
  - induction (bbox (target d)) as [|r rest IH]; simpl.
    + constructor.
    + constructor; [|exact IH].
      unfold box_Qeq. simpl. change (inject_Z 0) with 0.
      split; [ring|]. split; [ring|]. split; ring.
  - induction (bbox (target d)) as [|r rest IH]; simpl.
    + constructor.
    + constructor; [|exact IH].
      unfold box_Qeq. simpl. change (inject_Z 0) with 0.
      split; [ring|]. split; [ring|]. split; ring.
Qed.

Lemma nzero_inject_Z (z : Z) : nzero (inject_Z z) = true <-> z = 0%Z.
Proof.
  simpl. rewrite Qeq_bool_iff. unfold Qeq. simpl. lia.
Qed.

Lemma truediv_inject_Z (a : Q) (z : Z) :
  truediv a (of_int z)
  = if (z =? 0)%Z then Raise ZeroDivisionError else Ok (a / inject_Z z).
Proof.
  unfold truediv. change (of_int z) with (inject_Z z).
  destruct (Z.eqb_spec z 0) as [->|Hz].
  - reflexivity.
  - destruct (nzero (inject_Z z)) eqn:E; [|reflexivity].
    apply nzero_inject_Z in E. contradiction.
Qed.

(** [resize] and [resize_to] raise [ZeroDivisionError] exactly on an image
    with a zero height or width, whatever the requested size; on every
    other image they return, and the image [resize_to] returns has the
    requested width and height. *)
Theorem resize_zero_dimension (size : Q) (dest : Z * Z) (d : Sample Q Pix) :
  (resize size d = Raise ZeroDivisionError
   <-> height (image d) = 0%Z \/ width (image d) = 0%Z) /\
  (resize_to dest d = Raise ZeroDivisionError
   <-> height (image d) = 0%Z \/ width (image d) = 0%Z) /\
  (height (image d) <> 0%Z -> width (image d) <> 0%Z ->
   (exists d1, resize size d = Ok d1) /\
   (exists d2, resize_to dest d = Ok d2 /\
               width (image d2) = fst dest /\ height (image d2) = snd dest)).
Proof.
  destruct dest as [cw ch].
  unfold resize, resize_factor, resize_to. rewrite !truediv_inject_Z.
  destruct (Z.eqb_spec (height (image d)) 0) as [Hh|Hh];
    destruct (Z.eqb_spec (width (image d)) 0) as [Hw|Hw]; simpl.
  - split; [|split]; [split; auto | split; auto | intros; contradiction].
  - split; [|split]; [split; auto | split; auto | intros; contradiction].
  - split; [|split]; [split; auto | split; auto | intros; contradiction].
  - split; [|split].
    + split; [discriminate | intros [|]; contradiction].
    + split; [discriminate | intros [|]; contradiction].
    + intros _ _. split; eauto.
Qed.

End ScaleFacts.

Section FlipFacts.
Context {T Pix Rng : Type} `{PyNum T} `{PyRandom T Rng} `{ImageLib T Pix Rng}.

(** A record equals its own extension with the fields it already has. *)
Lemma extend_same (d : Sample T Pix) :
  extend_image_target d (image d) (target_extend_bbox (target d) (bbox (target d))) = d.
Proof. destruct d as [i f img sz [b l]]. reflexivity. Qed.

Lemma flip_draw_state (enabled : bool) (g : Rng) :
  exists c,
    (if enabled
     then do! u := lift_draw (uniform (of_int 0) (of_int 1)) in mret (nltb half u)
     else mret false) g
    = Ok (c, if enabled then snd (random g) else g) /\
    (enabled = false -> c = false).
Proof.
  destruct enabled; unfold mbind_, lift_draw, mret, uniform.
  - destruct (random g) as [r g1]. simpl.
    eexists. split; [reflexivity | discriminate].
  - exists false. split; reflexivity.
Qed.

(** [random_flips] never raises and draws exactly one number per enabled
    flip, in the order transpose, vertical, horizontal; with all three
    disabled it returns the record unchanged and draws nothing. *)
Theorem random_flips_draws (h v t : bool) (d : Sample T Pix) (g : Rng) :
  (exists d',
      random_flips h v t d g
      = Ok (d', Nat.iter (Nat.b2n t + Nat.b2n v + Nat.b2n h)
                         (fun g0 => snd (random g0)) g)) /\
  random_flips false false false d g = Ok (d, g).
Proof.
  split.
  - unfold random_flips.
    unfold mbind_ at 1. destruct (flip_draw_state t g) as (c1 & -> & _).
    destruct (if c1 then _ else _) as [img1 b1].
    unfold mbind_ at 1.
    destruct (flip_draw_state v (if t then snd (random g) else g)) as (c2 & -> & _).
    destruct (if c2 then _ else _) as [img2 b2].
    unfold mbind_ at 1.
    destruct (flip_draw_state h (if v then snd (random (if t then snd (random g) else g))
                                 else (if t then snd (random g) else g)))
      as (c3 & -> & _).
    destruct (if c3 then _ else _) as [img3 b3].
    unfold mret. eexists. f_equal. f_equal.
    destruct t, v, h; reflexivity.
  - unfold random_flips, mbind_, mret. simpl. rewrite extend_same. reflexivity.
Qed.

End FlipFacts.

Section CropErrorFacts.
Context {Pix Rng : Type} `{PyRandom R Rng} `{ImageLib R Pix Rng}.

Local Open Scope R_scope.

Lemma math_log_R (x : R) :
  math_log x = if Rlt_dec 0 x then Ok (ln x) else Raise ValueError.
Proof. unfold math_log. simpl. destruct (Rlt_dec 0 x); reflexivity. Qed.

Lemma random_log_R (l u : R) (g : Rng) :
  (0 < l -> 0 < u -> exists v g', random_log l u g = Ok (v, g')) /\
  (l <= 0 \/ u <= 0 -> random_log l u g = Raise ValueError).
Proof.
  unfold random_log, mbind_, lift_result, lift_draw, mret. rewrite !math_log_R.
  split.
  - intros Hl Hu.
    destruct (Rlt_dec 0 l) as [_|Hn]; [|contradiction].
    destruct (Rlt_dec 0 u) as [_|Hn]; [|contradiction].
    destruct (uniform (ln l) (ln u) g) as [v g']. eauto.
  - intros Hbad.
    destruct (Rlt_dec 0 l) as [Hl|_]; [|reflexivity].
    destruct (Rlt_dec 0 u) as [Hu|_]; [|reflexivity].
    exfalso. destruct Hbad; lra.
Qed.

(** [random_crop_padded] raises [ValueError] (from [math.log]) whenever a
    bound of [scale_range] or of [aspect_range] is zero or negative,
    before it looks at the record. *)
Theorem random_crop_padded_bad_range (dest : Z * Z) (sr ar : R * R) (bb si : R)
    (d : Sample R Pix) (g : Rng) :
  fst sr <= 0 \/ snd sr <= 0 \/ fst ar <= 0 \/ snd ar <= 0 ->
  random_crop_padded dest sr ar bb si d g = Raise ValueError.
Proof.
  intros Hbad. unfold random_crop_padded, crop_scale.
  unfold mbind_ at 1. unfold mbind_ at 1.
  destruct (Rle_or_lt (fst sr) 0) as [H1|H1].
  { rewrite (proj2 (random_log_R _ _ g)) by (left; exact H1). reflexivity. }
  destruct (Rle_or_lt (snd sr) 0) as [H2|H2].
  { rewrite (proj2 (random_log_R _ _ g)) by (right; exact H2). reflexivity. }
  destruct (proj1 (random_log_R (fst sr) (snd sr) g) H1 H2) as (v & g1 & ->).
  unfold mbind_ at 1.
  rewrite (proj2 (random_log_R _ _ g1)) by (destruct Hbad as [|[|[|]]]; lra).
  reflexivity.
Qed.

End CropErrorFacts.

Section CropOriginFacts.
Context {T Pix Rng : Type} `{PyNum T} `{PyRandom T Rng} `{ImageLib T Pix Rng}.

(** On a record without instances the crop origin of [random_crop_padded]
    is the unbiased placement, whatever [select_instance] is: the selection
    draw is made and discarded, no instance is drawn and the
    instance-centred placement is never asked for. *)
Theorem crop_origin_no_instances (input_size : Z * Z) (region_size : T * T)
    (bb si : T) (t : Target T) (g : Rng) :
  label t = [] ->
  crop_origin input_size region_size bb si t g
  = Ok (fst (crop_padded input_size region_size bb g),
        snd (random (snd (crop_padded input_size region_size bb g)))).
Proof.
  intros Hl. unfold crop_origin, mbind_, lift_draw, mret, uniform.
  rewrite Hl. simpl.
  destruct (crop_padded input_size region_size bb g) as [xy g1]. simpl.
  destruct (random g1) as [r g2]. simpl.
  rewrite andb_false_r. reflexivity.
Qed.

(** On a record whose [bbox] and [label] counts agree, and with a
    [randint] that answers within its bounds, the crop origin is always
    found: [bbox[instance]] is never out of range. *)
Theorem crop_origin_returns (input_size : Z * Z) (region_size : T * T)
    (bb si : T) (t : Target T) (g : Rng) :
  counts_match t ->
  (forall (a b : Z) (g0 : Rng),
      (a <= b)%Z -> (a <= fst (randint a b g0) <= b)%Z) ->
  exists xy g', crop_origin input_size region_size bb si t g = Ok (xy, g').
Proof.
  intros Hc Hr. unfold crop_origin, mbind_, lift_draw, lift_result, mret, uniform.
  destruct (crop_padded input_size region_size bb g) as [xy g1].
  destruct (random g1) as [r g2]. simpl.
  destruct (nltb _ si && (0 <? Z.of_nat (length (label t)))%Z) eqn:E; [|eauto].
  apply andb_true_iff in E as [_ Hn]. apply Z.ltb_lt in Hn.
  specialize (Hr 0%Z (Z.of_nat (length (label t)) - 1)%Z g2 ltac:(lia)).
  destruct (randint 0 (Z.of_nat (length (label t)) - 1) g2) as [inst g3].
  simpl in Hr |- *.
  destruct (bbox t !! Z.to_nat inst) as [row|] eqn:El.
  - destruct (crop_target input_size region_size (as_tuple row) g3) as [xy' g4].
    eauto.
  - exfalso. apply lookup_ge_None in El. unfold counts_match in Hc. lia.
Qed.

End CropOriginFacts.

(* ------------------------------------------------------------------ *)
(** ** [multiple] and [flatten] *)

Section MultipleFacts.
Context {Rng A B : Type}.

Lemma multiple_returns_n (n : nat) (transform : A -> M Rng B) (data : A)
    (g g' : Rng) (xs : list B) :
  multiple n transform data g = Ok (xs, g') -> length xs = n.
Proof.
  revert g xs. induction n as [|n IH]; intros g xs; simpl.
  - unfold mret. intros E. injection E as <- _. reflexivity.
  - unfold mbind_ at 1. destruct (transform data g) as [[x g1]|]; [|discriminate].
    unfold mbind_ at 1.
    destruct (multiple n transform data g1) as [[ys g2]|] eqn:E2; [|discriminate].
    unfold mret. intros E. injection E as <- <-. simpl. f_equal. exact (IH _ _ E2).
Qed.

(** Whenever [multiple(n, transform)] returns, it returns exactly [n]
    samples. *)
Theorem multiple_length (n : nat) (transform : A -> M Rng B) (data : A)
    (g g' : Rng) (xs : list B) :
  multiple n transform data g = Ok (xs, g') -> length xs = n.
Proof. apply multiple_returns_n. Qed.

(** [multiple(n + m, transform)] is [multiple(n, transform)] followed by
    [multiple(m, transform)] on the generator state the first one leaves:
    the samples are drawn one after the other, and the first run that
    raises ends the whole call. *)
Theorem multiple_app (n m : nat) (transform : A -> M Rng B) (data : A) (g : Rng) :
  multiple (n + m) transform data g
  = match multiple n transform data g with
    | Ok (xs, g1) =>
        match multiple m transform data g1 with
        | Ok (ys, g2) => Ok (xs ++ ys, g2)
        | Raise e => Raise e
        end
    | Raise e => Raise e
    end.
Proof.
  revert g. induction n as [|n IH]; intros g; simpl.
  - unfold mret. destruct (multiple m transform data g) as [[ys g2]|]; reflexivity.
  - unfold mbind_ at 1 3. destruct (transform data g) as [[x g1]|]; [|reflexivity].
    unfold mbind_ at 1 2. rewrite IH. unfold mret.
    destruct (multiple n transform data g1) as [[xs g2]|]; [|reflexivity].
    destruct (multiple m transform data g2) as [[ys g3]|]; reflexivity.
Qed.

(** [flatten(collate_fn)] hands the collate function every sample of every
    list, in order: for lists of [n] samples each, [n] times the number of
    lists. *)
Theorem flatten_counts {C : Type} (collate_fn : list B -> C) (lists : list (list B))
    (n : nat) :
  Forall (fun y => length y = n) lists ->
  exists flat,
    flatten collate_fn lists = collate_fn flat /\
    length flat = (n * length lists)%nat /\
    (forall x, x ∈ flat <-> exists y, y ∈ lists /\ x ∈ y).
Proof.
  intros Hall. exists (concat lists). split; [reflexivity|]. split.
  - induction Hall as [|y rest Hy _ IH]; simpl; [lia|].
    rewrite length_app, IH, Hy. lia.
  - intros x. rewrite list_elem_of_In, in_concat. split.
    + intros (y & Hy & Hx). exists y. rewrite !list_elem_of_In. auto.
    + intros (y & Hy & Hx). exists y. rewrite <- !list_elem_of_In. auto.
Qed.

End MultipleFacts.

(* ------------------------------------------------------------------ *)
(** ** More on the batch producers *)

Section LoaderOutcomes.

Local Open Scope Z_scope.

(** [load_training] needs [epoch_size]: unset, it raises [TypeError] (on
    [None / image_samples]) and never reaches its [RandomSampler] branch;
    a zero [image_samples] with [epoch_size] set raises
    [ZeroDivisionError].  Every loader it returns has the configured
    [batch_size] and [num_workers], and its sampler is the [RandomSampler]
    fallback exactly when [epoch_size] is 0 and a [RepeatSampler] exactly
    when [epoch_size] is a non-zero number. *)
Theorem load_training_outcomes (args : Args) (len : Z) :
  (load_training args len = Raise TypeError <-> epoch_size args = None) /\
  (load_training args len = Raise ZeroDivisionError
   <-> epoch_size args <> None /\ image_samples args = 0) /\
  (forall l, load_training args len = Ok l ->
     dl_batch_size l = batch_size args /\
     dl_num_workers l = num_workers args /\
     (dl_sampler l = TorchRandomSampler len <-> epoch_size args = Some 0) /\
     ((exists n, dl_sampler l = RepeatSampler n len)
      <-> exists e, epoch_size args = Some e /\ e <> 0)).
Proof.
  destruct args as [eo s b w]. unfold load_training, int_truediv. simpl.
  destruct eo as [e|]; simpl.
  - destruct (Z.eqb_spec s 0) as [Hs|Hs]; simpl.
    + split; [split; discriminate|].
      split; [split; [intros _; split; [discriminate | exact Hs] | reflexivity]|].
      intros l E. discriminate E.
    + destruct (binary64 (inject_Z e / inject_Z s)) as [q|]; simpl.
      * assert (Hexn : forall x : exn, x <> ValueError ->
                  (let! sampler := if negb (e =? 0)
                                   then Ok (RepeatSampler (py_round q) len)
                                   else new_RandomSampler len in
                   new_DataLoader w b sampler) <> Raise x).
        { intros x Hx E. destruct (negb (e =? 0)); simpl in E.
          - apply new_DataLoader_raise in E. contradiction.
          - unfold new_RandomSampler in E. destruct (len <=? 0); simpl in E.
            + injection E as <-. contradiction.
            + apply new_DataLoader_raise in E. contradiction. }
        split; [split; [intros E; exfalso; revert E; apply Hexn; discriminate
                       | discriminate]|].
        split; [split; [intros E; exfalso; revert E; apply Hexn; discriminate
                       | intros [_ Hn]; contradiction]|].
        intros l. destruct (Z.eqb_spec e 0) as [He|He]; simpl.
        -- unfold new_RandomSampler. destruct (len <=? 0); simpl; [discriminate|].
           intros E. apply new_DataLoader_ok in E as [-> _]. simpl.
           split; [reflexivity|]. split; [reflexivity|]. split.
           ++ split; [intros _; congruence | reflexivity].
           ++ split; [intros [n En]; discriminate En|].
              intros (e' & E' & Hne). injection E' as <-. contradiction.
        -- intros E. apply new_DataLoader_ok in E as [-> _]. simpl.
           split; [reflexivity|]. split; [reflexivity|]. split.
           ++ split; [discriminate|]. intros E'. injection E' as ->. contradiction.
           ++ split; [intros _; exists e; split; [reflexivity | exact He]|].
              intros _. eexists. reflexivity.
      * split; [split; discriminate|].
        split; [split; [discriminate | intros [_ Hn]; contradiction]|].
        intros l E. discriminate E.
  - split; [split; reflexivity|].
    split; [split; [discriminate | intros [Hn _]; contradiction]|].
    intros l E. discriminate E.
Qed.

(** [sample_training] works without [epoch_size] (it then walks the image
    list once, with [ListSampler]); it rejects an [epoch_size] that is not
    positive with the bare assertion, raises [ZeroDivisionError] on a zero
    [image_samples], and every loader it returns holds exactly
    [batch_size] samples per batch after the [image_samples]-fold
    expansion. *)
Theorem sample_training_outcomes (args : Args) (len : Z) :
  (forall e, epoch_size args = Some e -> e <= 0 ->
             sample_training args len = Raise (AssertionError "")) /\
  (sample_training args len = Raise ZeroDivisionError
   <-> image_samples args = 0 /\
       (epoch_size args = None \/ exists e, epoch_size args = Some e /\ 0 < e)) /\
  (forall l, sample_training args len = Ok l ->
     dl_batch_size l * image_samples args = batch_size args /\
     dl_num_workers l = num_workers args /\
     match epoch_size args with
     | None => dl_sampler l = ListSampler len
     | Some e => 0 < e /\ dl_sampler l = DirectRandomSampler len (e / image_samples args)
     end).
Proof.
  destruct args as [eo s b w].
  unfold sample_training, py_assert, int_mod, int_floordiv. simpl.
  assert (Hnew : forall sp, new_DataLoader w (b / s) sp <> Raise ZeroDivisionError).
  { intros sp E. apply new_DataLoader_raise in E. discriminate E. }
  split; [|split].
  - intros e -> He. destruct (Z.ltb_spec 0 e); [lia | reflexivity].
  - destruct eo as [e|].
    + destruct (Z.ltb_spec 0 e) as [He|He]; simpl.
      * destruct (Z.eqb_spec s 0) as [Hs|Hs]; simpl.
        -- split; [intros _|reflexivity]. split; [exact Hs|]. right. eauto.
        -- destruct (b mod s =? 0); simpl.
           ++ destruct (Z.eqb_spec s 0) as [|_]; [contradiction|]. simpl.
              split; [intros E; exfalso; exact (Hnew _ E)
                     | intros [Hn _]; contradiction].
           ++ split; [discriminate | intros [Hn _]; contradiction].
      * split; [discriminate|]. intros [_ [Hn | (e' & E & He')]]; [discriminate|].
        injection E as <-. lia.
    + simpl. destruct (Z.eqb_spec s 0) as [Hs|Hs]; simpl.
      * split; [intros _|reflexivity]. split; [exact Hs | left; reflexivity].
      * destruct (b mod s =? 0); simpl.
        -- split; [intros E; exfalso; exact (Hnew _ E)
                  | intros [Hn _]; contradiction].
        -- split; [discriminate | intros [Hn _]; contradiction].
  - intros l.
    destruct (match eo with Some e => 0 <? e | None => true end) eqn:Ee;
      simpl; [|discriminate].
    destruct (Z.eqb_spec s 0) as [Hs|Hs]; simpl; [discriminate|].
    destruct (Z.eqb_spec (b mod s) 0) as [Hb|Hb]; simpl; [|discriminate].
    assert (Hprod : b / s * s = b).
    { pose proof (Z.div_mod b s Hs). lia. }
    destruct eo as [e|]; simpl.
    + destruct (Z.eqb_spec s 0) as [|_]; [contradiction|]. simpl.
      intros E. apply new_DataLoader_ok in E as [-> _]. simpl.
      apply Z.ltb_lt in Ee. auto.
    + intros E. apply new_DataLoader_ok in E as [-> _]. simpl. auto.
Qed.

(** Samples per epoch.  With [epoch_size] and [image_samples] positive, the
    images drawn by a loader that [sample_training] returns expand to at
    most [epoch_size] samples and to more than
    [epoch_size - image_samples]; when [image_samples] divides
    [epoch_size] (below [2 ** 53]), those drawn by a loader that
    [load_training] returns expand to exactly [epoch_size] samples. *)
Theorem epoch_sample_bounds (e s b w len : Z) :
  0 < e -> 0 < s ->
  (forall l2 n2, sample_training (mkArgs (Some e) s b w) len = Ok l2 ->
     draws_per_epoch (dl_sampler l2) = Some n2 ->
     e - s < n2 * s <= e) /\
  (e < 2 ^ 53 -> e mod s = 0 ->
   forall l1 n1, load_training (mkArgs (Some e) s b w) len = Ok l1 ->
     draws_per_epoch (dl_sampler l1) = Some n1 ->
     n1 * s = e).
Proof.
  intros He Hs.
  pose proof (Z.div_mod e s ltac:(lia)) as Hdm.
  pose proof (Z.mod_pos_bound e s Hs) as Hm.
  split.
  - intros l2 n2 E Hn. apply sample_training_draws in E as (_ & _ & _ & ->).
    simpl in Hn. injection Hn as <-. nia.
  - intros Hb Hdiv l1 n1 E Hn.
    rewrite (load_training_draws _ _ _ _ _ _ (conj He Hb) Hs Hdiv E) in Hn.
    injection Hn as <-. nia.
Qed.

End LoaderOutcomes.

(** Seven samples per epoch, two per image: [sample_training] draws three
    images, six samples. *)
Lemma epoch_sample_bounds_witness :
  (0 < 7)%Z /\ (0 < 2)%Z /\
  sample_training (mkArgs (Some 7%Z) 2 4 0) 10
  = Ok (mkDataLoader 0 2 (DirectRandomSampler 10 3)) /\
  (forall l2 n2, sample_training (mkArgs (Some 7%Z) 2 4 0) 10 = Ok l2 ->
     draws_per_epoch (dl_sampler l2) = Some n2 ->
     (7 - 2 < n2 * 2 <= 7)%Z) /\
  ((7 < 2 ^ 53)%Z -> (7 mod 2 = 0)%Z ->
   forall l1 n1, load_training (mkArgs (Some 7%Z) 2 4 0) 10 = Ok l1 ->
     draws_per_epoch (dl_sampler l1) = Some n1 ->
     (n1 * 2 = 7)%Z).
Proof.
  split; [reflexivity|]. split; [reflexivity|]. split; [reflexivity|].
  apply (epoch_sample_bounds 7 2 4 0 10); reflexivity.
Defined.

(* ------------------------------------------------------------------ *)
(** ** More on the dataset facade *)

Section DatasetFacts.
Context {T : Type}.

Implicit Types (ds : DetectionDataset T) (files : list string) (i : ImageInfo T).

Lemma dataset_eq ds1 ds2 :
  (forall j, images ds1 !! j = images ds2 !! j) ->
  classes ds1 = classes ds2 -> ds1 = ds2.
Proof.
  destruct ds1 as [m1 c1], ds2 as [m2 c2]. simpl. intros Hm ->.
  f_equal. apply map_eq, Hm.
Qed.

(** The records after a successful call. *)
Lemma mark_evalated_lookup files net_id ds :
  (forall k, k ∈ files -> k ∈ dom (images ds)) ->
  classes (fst (mark_evalated files net_id ds)) = classes ds /\
  forall j,
    images (fst (mark_evalated files net_id ds)) !! j
    = if decide (j ∈ files)
      then set_evaluated net_id <$> images ds !! j
      else images ds !! j.
Proof.
  revert ds. induction files as [|k0 files IH]; intros ds Hall.
  - split; [reflexivity|]. intros j.
    rewrite decide_False by apply not_elem_of_nil. reflexivity.
  - assert (Hhead : k0 ∈ dom (images ds)) by (apply Hall, elem_of_cons; by left).
    assert (Htail : forall j, j ∈ files -> j ∈ dom (images ds))
      by (intros j Hj; apply Hall, elem_of_cons; by right).
    rewrite mark_evalated_cons.
    rewrite bool_decide_eq_true_2 by exact Hhead.
    set (ds1 := mkDataset (alter (set_evaluated net_id) k0 (images ds)) (classes ds)).
    destruct (IH ds1) as (Hc & Hl).
    { intros j Hj. subst ds1. simpl. rewrite dom_alter_L. apply Htail, Hj. }
    split; [exact Hc|].
    intros j. rewrite Hl. subst ds1. simpl.
    rewrite lookup_alter.
    destruct (decide (j ∈ files)) as [Hj|Hj]; destruct (decide (k0 = j)) as [->|Hne].
    + rewrite decide_True by (apply elem_of_cons; by left).
      destruct (images ds !! j); reflexivity.
    + rewrite decide_True by (apply elem_of_cons; by right). reflexivity.
    + rewrite decide_True by (apply elem_of_cons; by left). reflexivity.
    + rewrite decide_False by (apply not_elem_of_cons; split; [congruence | exact Hj]).
      reflexivity.
Qed.

(** When every id of [files] is a key, [mark_evalated] returns normally,
    every record named in [files] gets [evaluated = net_id] and keeps its
    other fields, and every other record, the key set and [classes] are
    unchanged. *)
Theorem mark_evalated_marks files net_id ds :
  (forall k, k ∈ files -> k ∈ dom (images ds)) ->
  snd (mark_evalated files net_id ds) = Ok tt /\
  (forall j i, j ∈ files -> images ds !! j = Some i ->
     images (fst (mark_evalated files net_id ds)) !! j
     = Some (mkInfo (info_id i) (info_file i) (category i) (Some net_id)
                    (info_target i))) /\
  (forall j, j ∉ files ->
     images (fst (mark_evalated files net_id ds)) !! j = images ds !! j) /\
  dom (images (fst (mark_evalated files net_id ds))) = dom (images ds) /\
  classes (fst (mark_evalated files net_id ds)) = classes ds.
Proof.
  intros Hall. destruct (mark_evalated_lookup files net_id ds Hall) as [Hc Hl].
  split; [apply mark_evalated_ok, Hall|].
  split; [|split; [|split; [apply mark_evalated_dom | exact Hc]]].
  - intros j i Hj Hi. rewrite Hl, decide_True by exact Hj. rewrite Hi. reflexivity.
  - intros j Hj. rewrite Hl, decide_False by exact Hj. reflexivity.
Qed.

(** The outcome of a successful [mark_evalated] depends on the set of ids
    only, not on their order or repetitions, and marking again with the
    same arguments changes nothing. *)
Theorem mark_evalated_set_only files files' net_id ds :
  (forall k, k ∈ files -> k ∈ dom (images ds)) ->
  (forall k, k ∈ files <-> k ∈ files') ->
  fst (mark_evalated files' net_id ds) = fst (mark_evalated files net_id ds) /\
  fst (mark_evalated files net_id (fst (mark_evalated files net_id ds)))
  = fst (mark_evalated files net_id ds).
Proof.
  intros Hall Hsame.
  assert (Hall' : forall k, k ∈ files' -> k ∈ dom (images ds))
    by (intros k Hk; apply Hall, Hsame, Hk).
  destruct (mark_evalated_lookup files net_id ds Hall) as [Hc Hl].
  destruct (mark_evalated_lookup files' net_id ds Hall') as [Hc' Hl'].
  split.
  - apply dataset_eq; [|congruence].
    intros j. rewrite Hl, Hl'.
    destruct (decide (j ∈ files)) as [Hj|Hj].
    + rewrite decide_True by (apply Hsame, Hj). reflexivity.
    + rewrite decide_False by (intros Hj'; apply Hj, Hsame, Hj'). reflexivity.
  - assert (Hall2 : forall k, k ∈ files ->
                      k ∈ dom (images (fst (mark_evalated files net_id ds))))
      by (intros k Hk; rewrite mark_evalated_dom; apply Hall, Hk).
    destruct (mark_evalated_lookup files net_id _ Hall2) as [Hc2 Hl2].
    apply dataset_eq; [|congruence].
    intros j. rewrite Hl2, Hl.
    destruct (decide (j ∈ files)); [|reflexivity].
    destruct (images ds !! j); reflexivity.
Qed.

(** [get_images(k)] returns exactly the records of category [k], and
    [get_images()] every record: as many as there are keys. *)
Theorem get_images_members (c : string) i ds :
  (i ∈ get_images (Some c) ds
   <-> (exists k, images ds !! k = Some i) /\ category i = c) /\
  (i ∈ get_images None ds <-> exists k, images ds !! k = Some i) /\
  length (get_images None ds) = size (images ds).
Proof.
  unfold get_images. split; [|split].
  - rewrite list_elem_of_In, filter_In, <- list_elem_of_In, list_elem_of_fmap.
    rewrite bool_decide_eq_true. split.
    + intros [((k & i') & -> & Hk) Hc]. apply elem_of_map_to_list in Hk.
      split; [eauto | exact Hc].
    + intros [(k & Hk) Hc]. split; [|exact Hc].
      exists (k, i). split; [reflexivity|]. apply elem_of_map_to_list, Hk.
  - rewrite list_elem_of_In, filter_In, <- list_elem_of_In, list_elem_of_fmap. split.
    + intros [((k & i') & -> & Hk) _]. apply elem_of_map_to_list in Hk. eauto.
    + intros (k & Hk). split; [|reflexivity].
      exists (k, i). split; [reflexivity|]. apply elem_of_map_to_list, Hk.
  - rewrite <- length_map_to_list, <- (length_fmap snd).
    f_equal. induction (snd <$> map_to_list (images ds)) as [|x l IH]; simpl;
      [reflexivity | f_equal; exact IH].
Qed.

(** The counting loop of [count_categories] on a list of records. *)
Lemma count_fold (c : string) (l : list (ImageInfo T)) (acc : gmap string Z) :
  default 0%Z
    (foldl (fun (categories : gmap string Z) (i : ImageInfo T) =>
              <[category i := (default 0 (categories !! category i) + 1)]> categories)%Z
           acc l !! c)
  = (default 0 (acc !! c)
     + Z.of_nat (length (List.filter (fun i => bool_decide (category i = c)) l)))%Z /\
  (foldl (fun (categories : gmap string Z) (i : ImageInfo T) =>
            <[category i := (default 0 (categories !! category i) + 1)]> categories)%Z
         acc l !! c = None
   <-> acc !! c = None /\ List.filter (fun i => bool_decide (category i = c)) l = []).
Proof.
  revert acc. induction l as [|i l IH]; intros acc; simpl.
  - split; [lia|]. split; [auto | intros [? _]; assumption].
  - destruct (IH (<[category i := (default 0 (acc !! category i) + 1)%Z]> acc))
      as [IH1 IH2].
    rewrite IH1, IH2. clear IH IH1 IH2.
    case_bool_decide as Hc.
    + subst c. rewrite lookup_insert_eq. simpl. split; [lia|].
      split; [intros [? _]; discriminate | intros [_ ?]; discriminate].
    + rewrite lookup_insert_ne by exact Hc. split; reflexivity.
Qed.

(** [count_categories()] agrees with [get_images]: the count it reports for
    a category is the number of records [get_images] returns for it, and a
    category is absent from the result exactly when it has no record. *)
Theorem count_categories_get_images (c : string) ds :
  default 0%Z (count_categories ds !! c)
  = Z.of_nat (length (get_images (Some c) ds)) /\
  (count_categories ds !! c = None <-> get_images (Some c) ds = []).
Proof.
  unfold count_categories, get_images.
  destruct (count_fold c (snd <$> map_to_list (images ds)) ∅) as [H1 H2].
  split.
  - rewrite H1, lookup_empty. simpl. reflexivity.
  - rewrite H2, lookup_empty. split; [intros [_ ?]; assumption | auto].
Qed.

Lemma filter_all {A} (l : list A) : List.filter (fun _ => true) l = l.
Proof. induction l as [|x l IH]; simpl; [reflexivity | f_equal; exact IH]. Qed.

(** [update_image(image)] stores the record under its own id, replacing a
    record of that id if there is one, and touches no other key: the
    records afterwards are the new one and the old ones of other ids. *)
Theorem update_image_lookup i ds :
  images (update_image i ds) !! info_id i = Some i /\
  (forall j, j <> info_id i ->
     images (update_image i ds) !! j = images ds !! j) /\
  get_images None (update_image i ds)
    ≡ₚ i :: (snd <$> map_to_list (delete (info_id i) (images ds))) /\
  classes (update_image i ds) = classes ds.
Proof.
  unfold update_image, get_images. simpl.
  split; [apply lookup_insert_eq|].
  split; [intros j Hj; apply lookup_insert_ne; congruence|].
  split; [|reflexivity].
  rewrite filter_all, <- insert_delete_eq.
  rewrite map_to_list_insert by apply lookup_delete_eq.
  reflexivity.
Qed.

End DatasetFacts.

(* ------------------------------------------------------------------ *)
(** ** More on [add_noise] *)

Section ItemFacts.
Context {A : Type}.

(** Two item lists with the same keys, related value by value, give
    related dicts. *)
Lemma related_items_keys (R : A -> A -> Prop) (items items' : list (string * A)) :
  Forall2 (fun x y => fst x = fst y /\ R (snd x) (snd y)) items items' ->
  items'.*1 = items.*1.
Proof.
  induction 1 as [|[k i] [k' i'] l l' [Hk _] _ IH]; [reflexivity|].
  rewrite !fmap_cons. simpl in Hk. rewrite IH, Hk. reflexivity.
Qed.

Lemma related_items_elem (R : A -> A -> Prop) (items items' : list (string * A))
    (k : string) :
  Forall2 (fun x y => fst x = fst y /\ R (snd x) (snd y)) items items' ->
  (forall i, (k, i) ∈ items -> exists i', (k, i') ∈ items' /\ R i i') /\
  (forall i', (k, i') ∈ items' -> exists i, (k, i) ∈ items /\ R i i').
Proof.
  induction 1 as [|[k0 i0] [k0' i0'] l l' [Hk HR] _ [IH1 IH2]]; simpl in *.
  - split; intros ? Hin; apply elem_of_nil in Hin; contradiction.
  - subst k0'. split.
    + intros i Hin. apply elem_of_cons in Hin as [E | Hin].
      * injection E as -> ->. exists i0'. split; [apply elem_of_cons; by left | exact HR].
      * destruct (IH1 i Hin) as (i' & Hin' & HR'). exists i'.
        split; [apply elem_of_cons; by right | exact HR'].
    + intros i' Hin. apply elem_of_cons in Hin as [E | Hin].
      * injection E as -> ->. exists i0. split; [apply elem_of_cons; by left | exact HR].
      * destruct (IH2 i' Hin) as (i & Hin' & HR'). exists i.
        split; [apply elem_of_cons; by right | exact HR'].
Qed.

Lemma related_items_map (R : A -> A -> Prop) (m : gmap string A)
    (items' : list (string * A)) :
  Forall2 (fun x y => fst x = fst y /\ R (snd x) (snd y)) (map_to_list m) items' ->
  dom (list_to_map items' : gmap string A) = dom m /\
  forall k i, m !! k = Some i ->
    exists i', (list_to_map items' : gmap string A) !! k = Some i' /\ R i i'.
Proof.
  intros Hrel.
  assert (Hnd : NoDup (items'.*1)).
  { rewrite (related_items_keys R _ _ Hrel). apply NoDup_fst_map_to_list. }
  assert (Hlook : forall k i, m !! k = Some i ->
            exists i', (list_to_map items' : gmap string A) !! k = Some i' /\ R i i').
  { intros k i Hk. apply elem_of_map_to_list in Hk.
    destruct (proj1 (related_items_elem R _ _ k Hrel) i Hk) as (i' & Hin & HR).
    exists i'. split; [|exact HR]. apply elem_of_list_to_map_1; assumption. }
  split; [|exact Hlook].
  apply set_eq. intros k. rewrite !elem_of_dom. split.
  - intros [i' Hi']. apply elem_of_list_to_map_2 in Hi'.
    destruct (proj2 (related_items_elem R _ _ k Hrel) i' Hi') as (i & Hin & _).
    exists i. apply elem_of_map_to_list, Hin.
  - intros [i Hi]. destruct (Hlook k i Hi) as (i' & Hi' & _). eauto.
Qed.

End ItemFacts.

Section AddNoiseMore.
Context {T Rng : Type} `{PyNum T} `{PyRandom T Rng} `{BoxLib T}.

Lemma randn2_length (n : nat) (g : Rng) : length (fst (randn2 n g)) = n.
Proof.
  revert g. induction n as [|n IH]; intros g; simpl; [reflexivity|].
  destruct (normal g) as [a g1]. destruct (normal g1) as [b g2].
  specialize (IH g2). destruct (randn2 n g2) as [rows g3]. simpl in *.
  f_equal. exact IH.
Qed.

Lemma add_image_noise_keeps (noise offset : T) (i : ImageInfo T)
    (totals : Totals T) (g : Rng) :
  same_but_coordinates i (fst (fst (add_image_noise noise offset i totals g))).
Proof.
  unfold add_image_noise, same_but_coordinates.
  destruct (bool_decide (category i = "train")).
  - pose proof (randn2_length (table_size (info_target i)) g) as L1.
    destruct (randn2 (table_size (info_target i)) g) as [r1 g1].
    pose proof (randn2_length (table_size (info_target i)) g1) as L2.
    destruct (randn2 (table_size (info_target i)) g1) as [r2 g2].
    simpl in *. repeat split.
    unfold box_point_form, box_extents, table_size in *.
    rewrite length_map, !length_zip_with, length_fmap, length_map. lia.
  - simpl. repeat split.
    unfold box_point_form, box_extents.
    rewrite length_map, length_fmap, length_map. reflexivity.
Qed.

Lemma add_noise_items_keeps (noise offset : T) (items : list (string * ImageInfo T))
    (totals : Totals T) (g : Rng) :
  Forall2 (fun x y => fst x = fst y /\ same_but_coordinates (snd x) (snd y))
          items (fst (fst (add_noise_items noise offset items totals g))).
Proof.
  revert totals g. induction items as [|[k i] rest IH]; intros totals g; simpl.
  - constructor.
  - pose proof (add_image_noise_keeps noise offset i totals g) as Hi.
    destruct (add_image_noise noise offset i totals g) as [[i' totals1] g1].
    specialize (IH totals1 g1).
    destruct (add_noise_items noise offset rest totals1 g1) as [[rest' totals2] g2].
    simpl in *. constructor; [split; [reflexivity | exact Hi] | exact IH].
Qed.

(** [add_noise] changes coordinates only: the new [images] dict has the
    same keys, and under each key a record with the same id, file,
    category, evaluation mark and labels and as many boxes as before;
    [classes] is kept. *)
Theorem add_noise_keeps (noise offset : T) (self : DetectionDataset T) (g : Rng) :
  dom (images (fst (fst (add_noise noise offset self g)))) = dom (images self) /\
  (forall k i, images self !! k = Some i ->
     exists i', images (fst (fst (add_noise noise offset self g))) !! k = Some i' /\
                same_but_coordinates i i') /\
  classes (fst (fst (add_noise noise offset self g))) = classes self.
Proof.
  unfold add_noise.
  pose proof (add_noise_items_keeps noise offset (map_to_list (images self))
                (mkTotals IntZero 0) g) as Hrel.
  destruct (add_noise_items noise offset (map_to_list (images self))
              (mkTotals IntZero 0) g) as [[items totals] g'].
  simpl in *.
  destruct (related_items_map same_but_coordinates _ _ Hrel) as [Hdom Hlook].
  split; [exact Hdom|]. split; [exact Hlook | reflexivity].
Qed.

(** [add_noise] reports a mean exactly when the training images have
    instances: [totals.n] is their number, and the report is the quotient
    by it when it is not zero. *)
Theorem add_noise_mean_iff (noise offset : T) (self : DetectionDataset T) (g : Rng) :
  tot_n (add_noise_totals noise offset self g) = train_instances self /\
  ((exists v, snd (add_noise noise offset self g) = Ok (Quotient v))
   <-> train_instances self <> 0%Z).
Proof.
  assert (Hn : tot_n (add_noise_totals noise offset self g) = train_instances self).
  { unfold add_noise_totals. rewrite add_noise_items_n. reflexivity. }
  split; [exact Hn|].
  rewrite add_noise_report. unfold mean_iou. rewrite Hn.
  destruct (Z.eqb_spec (train_instances self) 0) as [Hz|Hz].
  - split; [|contradiction].
    intros [v Hv]. destruct (tot_iou _); discriminate.
  - split; [intros _; exact Hz|]. intros _. destruct (tot_iou _); eauto.
Qed.

End AddNoiseMore.

Section AddNoiseItems.
Context {T Rng : Type} `{PyNum T} `{PyRandom T Rng} `{BoxLib T}.

(** A relation that [add_image_noise] establishes for every record holds
    between the items before and after the comprehension. *)
Lemma add_noise_items_rel (R : ImageInfo T -> ImageInfo T -> Prop) (noise offset : T) :
  (forall i totals g, R i (fst (fst (add_image_noise noise offset i totals g)))) ->
  forall (items : list (string * ImageInfo T)) (totals : Totals T) (g : Rng),
    Forall2 (fun x y => fst x = fst y /\ R (snd x) (snd y))
            items (fst (fst (add_noise_items noise offset items totals g))).
Proof.
  intros HR items. induction items as [|[k i] rest IH]; intros totals g; simpl.
  - constructor.
  - pose proof (HR i totals g) as Hi.
    destruct (add_image_noise noise offset i totals g) as [[i' totals1] g1].
    specialize (IH totals1 g1).
    destruct (add_noise_items noise offset rest totals1 g1) as [[rest' totals2] g2].
    simpl in *. constructor; [split; [reflexivity | exact Hi] | exact IH].
Qed.

End AddNoiseItems.

Section AddNoiseZero.
Context {Rng : Type} `{PyRandom Q Rng} `{BoxLib Q}.

Local Open Scope Q_scope.

(** Centre and size and back, with the shift and both perturbations at
    zero, whatever was drawn. *)
Lemma zero_noise_rows (b : list (Box Q)) (r1 r2 : list (Q * Q)) :
  length r1 = length b -> length r2 = length b ->
  Forall2 box_Qeq
    (box_point_form
       (zip_with (fun '((cx, cy), (sw, sh)) '(a, c) =>
                    ((cx, cy),
                     (nmul sw (nadd (nmul a 0) (of_int 1)),
                      nmul sh (nadd (nmul c 0) (of_int 1)))))
          (zip_with (fun '((cx, cy), (sw, sh)) '(a, c) =>
                       ((nadd cx (nmul (nmul a 0) sw),
                         nadd cy (nmul (nmul c 0) sh)), (sw, sh)))
             ((fun '((cx, cy), (sw, sh)) =>
                 ((nadd cx (nmul 0 sw), nadd cy (nmul 0 sh)), (sw, sh)))
              <$> box_extents b) r1) r2))
    b.
Proof.
  revert r1 r2. induction b as [|r b IH]; intros r1 r2 L1 L2.
  - constructor.
  - destruct r1 as [|[a1 c1] r1]; [discriminate|].
    destruct r2 as [|[a2 c2] r2]; [discriminate|].
    simpl in L1, L2. injection L1 as L1. injection L2 as L2.
    simpl. constructor; [|exact (IH r1 r2 L1 L2)].
    unfold box_Qeq, half. simpl.
    split; [field|]. split; [field|]. split; field.
Qed.

Lemma zero_shift_rows (b : list (Box Q)) :
  Forall2 box_Qeq
    (box_point_form
       ((fun '((cx, cy), (sw, sh)) =>
           ((nadd cx (nmul 0 sw), nadd cy (nmul 0 sh)), (sw, sh)))
        <$> box_extents b))
    b.
Proof.
  induction b as [|r b IH]; simpl; constructor; [|exact IH].
  unfold box_Qeq, half. simpl.
  split; [field|]. split; [field|]. split; field.
Qed.

Lemma add_image_noise_zero (i : ImageInfo Q) (totals : Totals Q) (g : Rng) :
  Forall2 box_Qeq
    (bbox (info_target (fst (fst (add_image_noise 0 0 i totals g)))))
    (bbox (info_target i)).
Proof.
  unfold add_image_noise.
  destruct (bool_decide (category i = "train")).
  - pose proof (randn2_length (table_size (info_target i)) g) as L1.
    destruct (randn2 (table_size (info_target i)) g) as [r1 g1].
    pose proof (randn2_length (table_size (info_target i)) g1) as L2.
    destruct (randn2 (table_size (info_target i)) g1) as [r2 g2].
    simpl fst in *. simpl snd in *. cbn [info_extend_bbox info_target bbox target_extend_bbox].
    apply zero_noise_rows; assumption.
  - cbn [fst snd info_extend_bbox info_target bbox target_extend_bbox].
    apply zero_shift_rows.
Qed.

(** With [noise = 0] and [offset = 0], [add_noise] leaves every box of every
    record where it was (coordinate by coordinate, over the rationals),
    whatever the generator draws for the training images. *)
Theorem add_noise_zero (self : DetectionDataset Q) (g : Rng) (k : string)
    (i : ImageInfo Q) :
  images self !! k = Some i ->
  exists i', images (fst (fst (add_noise 0 0 self g))) !! k = Some i' /\
             Forall2 box_Qeq (bbox (info_target i')) (bbox (info_target i)).
Proof.
  intros Hk. unfold add_noise.
  pose proof (add_noise_items_rel
                (fun i i' => Forall2 box_Qeq (bbox (info_target i'))
                                             (bbox (info_target i)))
                0 0 add_image_noise_zero
                (map_to_list (images self)) (mkTotals IntZero 0) g) as Hrel.
  destruct (add_noise_items 0 0 (map_to_list (images self))
              (mkTotals IntZero 0) g) as [[items totals] g'].
  simpl in *.
  exact (proj2 (related_items_map
                  (fun i i' => Forall2 box_Qeq (bbox (info_target i'))
                                               (bbox (info_target i)))
                  _ _ Hrel) k i Hk).
Qed.

End AddNoiseZero.

(* ------------------------------------------------------------------ *)
(** ** The training and testing pipelines *)

(** A loader that [sample_training] returns without [epoch_size]. *)
Lemma sample_training_unset (args : Args) (len : Z) (l : DataLoader) :
  epoch_size args = None ->
  sample_training args len = Ok l ->
  dl_sampler l = ListSampler len /\
  (dl_batch_size l * image_samples args = batch_size args)%Z.
Proof.
  destruct args as [eo s b w]. simpl. intros ->.
  unfold sample_training, py_assert, int_mod, int_floordiv. simpl.
  destruct (Z.eqb_spec s 0) as [|Hs]; simpl; [discriminate|].
  destruct (Z.eqb_spec (b mod s) 0) as [Hb|]; simpl; [|discriminate].
  intros E. apply new_DataLoader_ok in E as [-> _]. simpl.
  split; [reflexivity|]. pose proof (Z.div_mod b s Hs). lia.
Qed.

Section PipelineFacts.
Context {T Pix Rng Enc : Type} `{PyNum T} `{PyMath T} `{PyTrunc T}
        `{PyRandom T Rng} `{BoxLib T} `{ImageLib T Pix Rng}
        `{Photometric T Pix Rng} `{Encoder T Pix Enc}.

(** An augmentation method other than ["crop"] and ["resize"] makes
    [transform_training], and with it [train], fail with the assertion that
    names the method; [transform_testing] has no such check and silently
    applies no geometric transform at all. *)
Theorem unknown_augment (args : PipelineArgs T) (self : DetectionDataset T)
    (encoder : option (Encoder T Pix Enc)) (d : Sample T Pix) :
  a_augment args <> "crop" -> a_augment args <> "resize" ->
  (exists e, transform_training (Enc := Enc) args = Raise e /\
     e = AssertionError ("unknown augmentation method " +:+ a_augment args)) /\
  train (Enc := Enc) args self
  = Raise (AssertionError ("unknown augmentation method " +:+ a_augment args)) /\
  transform_testing args encoder d = Ok (encode_with encoder d).
Proof.
  intros Hc Hr.
  assert (E : training_crop (Pix := Pix) (Rng := Rng) args
              = Raise (AssertionError ("unknown augmentation method "
                                       +:+ a_augment args))).
  { unfold training_crop.
    rewrite bool_decide_eq_false_2 by exact Hc.
    rewrite bool_decide_eq_false_2 by exact Hr. reflexivity. }
  split; [|split].
  - eexists. split; [|reflexivity]. unfold transform_training. rewrite E. reflexivity.
  - unfold train, transform_training. rewrite E. reflexivity.
  - unfold transform_testing, testing_transform.
    rewrite bool_decide_eq_false_2 by exact Hc.
    rewrite bool_decide_eq_false_2 by exact Hr. reflexivity.
Qed.

Lemma multiple_Forall {A B} (P : B -> Prop) (n : nat) (f : A -> M Rng B) (data : A) :
  (forall g x g', f data g = Ok (x, g') -> P x) ->
  forall g xs g', multiple n f data g = Ok (xs, g') -> Forall P xs.
Proof.
  intros HP. induction n as [|n IH]; intros g xs g'; simpl.
  - unfold mret. intros E. injection E as <- _. constructor.
  - unfold mbind_ at 1. destruct (f data g) as [[x g1]|] eqn:E1; [|discriminate].
    unfold mbind_ at 1.
    destruct (multiple n f data g1) as [[ys g2]|] eqn:E2; [|discriminate].
    unfold mret. intros E. injection E as <- _.
    constructor; [exact (HP _ _ _ E1) | exact (IH _ _ _ E2)].
Qed.

Lemma crop_at_id (dest : Z * Z) (bb si : T) (d d' : Sample T Pix)
    (sxy : T * T) (g g' : Rng) :
  crop_at dest bb si d sxy g = Ok (d', g') -> d_id d' = d_id d.
Proof.
  unfold crop_at, mbind_, lift_result, mret.
  destruct dest as [cw ch], sxy as [sx sy].
  destruct (truediv (of_int cw) sx) as [rw|]; [|discriminate].
  destruct (truediv (of_int ch) sy) as [rh|]; [|discriminate].
  destruct (crop_origin _ _ _ _ _ g) as [[[x y] g1]|]; [|discriminate].
  intros E. injection E as <- _. reflexivity.
Qed.

Lemma resize_to_id (dest : Z * Z) (d d' : Sample T Pix) :
  resize_to dest d = Ok d' -> d_id d' = d_id d.
Proof.
  unfold resize_to. destruct dest as [cw ch].
  destruct (truediv (of_int cw) _) as [sx|]; simpl; [|discriminate].
  destruct (truediv (of_int ch) _) as [sy|]; simpl; [|discriminate].
  intros E. injection E as <-. reflexivity.
Qed.

Lemma training_crop_id (args : PipelineArgs T)
    (crop : Sample T Pix -> M Rng (Sample T Pix)) (d d' : Sample T Pix) (g g' : Rng) :
  training_crop args = Ok crop -> crop d g = Ok (d', g') -> d_id d' = d_id d.
Proof.
  unfold training_crop.
  destruct (bool_decide (a_augment args = "crop")).
  - destruct (match a_min_scale args with Some _ => _ | None => _ end) as [ms|];
      simpl; [|discriminate].
    destruct (truediv (of_int 1) (a_max_aspect args)) as [ia|]; simpl; [|discriminate].
    intros E. injection E as <-.
    unfold random_crop_padded, mbind_.
    destruct (crop_scale _ _ g) as [[sxy g1]|]; [|discriminate].
    apply crop_at_id.
  - destruct (bool_decide (a_augment args = "resize")); [|discriminate].
    intros E Hrun.
    assert (Hc : crop = fun d0 => lift_result (resize_to (dest_size_of args) d0))
      by congruence.
    rewrite Hc in Hrun. unfold lift_result in Hrun.
    destruct (resize_to (dest_size_of args) d) as [d1|] eqn:E1; [|discriminate Hrun].
    injection Hrun as <- _. exact (resize_to_id _ _ _ E1).
Qed.

Lemma random_flips_id (h v t : bool) (d d' : Sample T Pix) (g g' : Rng) :
  random_flips h v t d g = Ok (d', g') -> d_id d' = d_id d.
Proof.
  unfold random_flips.
  unfold mbind_ at 1. destruct (flip_draw_result t g) as (c1 & g1 & ->).
  destruct (if c1 then _ else _) as [img1 b1].
  unfold mbind_ at 1. destruct (flip_draw_result v g1) as (c2 & g2 & ->).
  destruct (if c2 then _ else _) as [img2 b2].
  unfold mbind_ at 1. destruct (flip_draw_result h g2) as (c3 & g3 & ->).
  destruct (if c3 then _ else _) as [img3 b3].
  unfold mret. intros E. injection E as <- _. reflexivity.
Qed.

Lemma training_run_sample (args : PipelineArgs T)
    (crop : Sample T Pix -> M Rng (Sample T Pix)) (d : Sample T Pix)
    (g g' : Rng) (x : Encoded T Pix Enc) :
  training_crop args = Ok crop ->
  training_run args crop d g = Ok (x, g') ->
  e_id x = d_id d /\ lengths x = length (label (e_target x)).
Proof.
  intros Hcrop. unfold training_run.
  unfold mbind_ at 1. destruct (crop d g) as [[d1 g1]|] eqn:E1; [|discriminate].
  pose proof (training_crop_id _ _ _ _ _ _ Hcrop E1) as Hid1.
  unfold mbind_ at 1. unfold adjust_light, mbind_ at 1, lift_draw, mret.
  destruct (adjust_gamma _ _ _ g1) as [i1 g2].
  unfold mbind_ at 1. destruct (adjust_brightness _ _ i1 g2) as [i2 g3].
  unfold mbind_ at 1. destruct (adjust_colours _ _ i2 g3) as [i3 g4].
  unfold mbind_ at 1.
  destruct (random_flips _ _ _ _ g4) as [[d4 g5]|] eqn:E4; [|discriminate].
  apply random_flips_id in E4. simpl in E4.
  intros E. injection E as <- _. simpl. split; [congruence | reflexivity].
Qed.

(** Whenever the training pipeline is built and returns on a record, it
    returns exactly [image_samples] encoded samples, each with the id of
    the record and with [lengths] equal to the label count of its own
    target. *)
Theorem transform_training_samples (args : PipelineArgs T)
    (f : Sample T Pix -> M Rng (list (Encoded T Pix Enc)))
    (d : Sample T Pix) (g g' : Rng) (xs : list (Encoded T Pix Enc)) :
  transform_training args = Ok f ->
  f d g = Ok (xs, g') ->
  length xs = Z.to_nat (image_samples (a_loader args)) /\
  Forall (fun x => e_id x = d_id d /\ lengths x = length (label (e_target x))) xs.
Proof.
  unfold transform_training.
  destruct (training_crop args) as [crop|] eqn:Hcrop; simpl; [|discriminate].
  intros E. injection E as <-. intros Hrun. split.
  - exact (multiple_returns_n _ _ _ _ _ _ Hrun).
  - refine (multiple_Forall _ _ _ _ _ _ _ _ Hrun).
    intros g0 x g0' Hx. exact (training_run_sample _ _ _ _ _ _ Hcrop Hx).
Qed.

(** [train] cannot be used without [epoch_size]: it never returns a loader,
    and once the pipeline is built it fails with [TypeError];
    [sample_train] with the same options does not depend on [epoch_size]:
    every loader it returns walks the training images once, with
    [batch_size // image_samples] images per batch. *)
Theorem train_needs_epoch_size (args : PipelineArgs T) (self : DetectionDataset T) :
  epoch_size (a_loader args) = None ->
  (forall l, train (Enc := Enc) args self <> Ok l) /\
  ((exists f, transform_training (Enc := Enc) args = Ok f) ->
   train (Enc := Enc) args self = Raise TypeError /\
   (forall l, sample_train (Enc := Enc) args self = Ok l ->
      dl_sampler l = ListSampler (Z.of_nat (length (train_images self))) /\
      (dl_batch_size l * image_samples (a_loader args)
       = batch_size (a_loader args))%Z)).
Proof.
  intros He.
  assert (Hload : forall len, load_training (a_loader args) len = Raise TypeError).
  { intros len. unfold load_training. rewrite He. reflexivity. }
  split.
  - intros l. unfold train.
    destruct (transform_training args); simpl; [rewrite Hload|]; discriminate.
  - intros [f Hf]. unfold train, sample_train, sample_train_on. rewrite Hf. simpl.
    split; [apply Hload|].
    intros l. apply sample_training_unset. exact He.
Qed.

End PipelineFacts.

Section TestingFacts.
Context {T Pix Rng Enc : Type} `{PyNum T} `{PyTrunc T} `{ImageLib T Pix Rng}.

(** With ["crop"] augmentation, no [resize] and [scale == 1], the
    test-time transform is the identity, and [load_inference] returns the
    image exactly as it was read, whatever the id. *)
Theorem transform_testing_plain (args : PipelineArgs T) (d : Sample T Pix)
    (id file : string) :
  a_augment args = "crop" -> a_resize args = None ->
  py_eqb (a_scale args) (of_int 1) = true ->
  transform_testing (Enc := Enc) args None d = Ok (inl d) /\
  load_inference (Enc := Enc) id file args = Ok (imread_color file).
Proof.
  intros Ha Hr Hs.
  assert (E : forall d0 : Sample T Pix,
             transform_testing (Enc := Enc) args None d0 = Ok (inl d0)).
  { intros d0. unfold transform_testing, testing_transform.
    rewrite bool_decide_eq_true_2 by exact Ha. rewrite Hr, Hs. reflexivity. }
  split; [apply E|].
  unfold load_inference.
  unfold transform_testing, testing_transform.
  rewrite bool_decide_eq_true_2 by exact Ha. rewrite Hr, Hs. reflexivity.
Qed.

(** The test-time transform keeps the [bbox] and [label] counts equal
    whenever it returns a record. *)
Theorem transform_testing_counts (args : PipelineArgs T) (d d' : Sample T Pix) :
  counts_match (target d) ->
  transform_testing (Enc := Enc) args None d = Ok (inl d') ->
  counts_match (target d').
Proof.
  intros Hd. unfold transform_testing.
  destruct (testing_transform args d) as [d1|] eqn:E1; simpl; [|discriminate].
  intros E. injection E as <-.
  unfold testing_transform in E1.
  destruct (bool_decide (a_augment args = "crop")).
  - destruct (a_resize args) as [r|].
    + exact (resize_counts _ _ _ Hd E1).
    + destruct (negb _); injection E1 as <-; [apply scale_counts|]; exact Hd.
  - destruct (bool_decide (a_augment args = "resize")).
    + exact (resize_to_counts _ _ _ Hd E1).
    + injection E1 as <-. exact Hd.
Qed.

End TestingFacts.

(* ------------------------------------------------------------------ *)
(** ** The further properties on concrete inputs *)

(** The 20 x 20 box of the 100 x 200 record is accepted. *)
Lemma is_responsible_bbox_sides_witness :
  is_responsible_bbox (mkBox (10 # 1) (20 # 1) (30 # 1) (40 # 1))
                      (image sample_100x200) = true /\
  (Qabs ((30 # 1) - (10 # 1)) * Qabs ((30 # 1) - (10 # 1)) <= 5000)%Q /\
  (Qabs ((40 # 1) - (20 # 1)) * Qabs ((40 # 1) - (20 # 1)) <= 5000)%Q.
Proof.
  split; [reflexivity|].
  apply (is_responsible_bbox_sides (mkBox (10 # 1) (20 # 1) (30 # 1) (40 # 1))
           (image sample_100x200)).
  reflexivity.
Defined.

(** A scale range that starts at 0. *)
Lemma random_crop_padded_bad_range_witness :
  random_crop_padded (Rng := list R) (64, 64)%Z (0%R, 1%R) (1%R, 1%R) 0%R 0%R
                     sample_R []
  = Raise ValueError.
Proof.
  apply (random_crop_padded_bad_range (Rng := list R) (64, 64)%Z (0%R, 1%R)
           (1%R, 1%R) 0%R 0%R sample_R []).
  left. simpl. apply Rle_refl.
Defined.

(** The crop origin on an empty target. *)
Lemma crop_origin_no_instances_witness :
  label (empty_target (T := Q)) = [] /\
  crop_origin (Pix := unit) (Rng := list Q) (200, 100)%Z (64 # 1, 64 # 1)
              (0 # 1) (1 # 1) empty_target [1 # 4]
  = Ok ((0 # 1, 0 # 1), []).
Proof.
  split; [reflexivity|].
  exact (crop_origin_no_instances (Pix := unit) (Rng := list Q) (200, 100)%Z
           (64 # 1, 64 # 1) (0 # 1) (1 # 1) empty_target [1 # 4] eq_refl).
Defined.

(** The crop origin on the one-instance record, with the replaying
    generator, whose [randint(a, b)] answers [a]. *)
Lemma crop_origin_returns_witness :
  counts_match (target sample_100x200) /\
  exists xy g',
    crop_origin (Pix := unit) (Rng := list Q) (200, 100)%Z (64 # 1, 64 # 1)
                (0 # 1) (1 # 1) (target sample_100x200) [1 # 4]
    = Ok (xy, g').
Proof.
  split; [reflexivity|].
  apply (crop_origin_returns (Pix := unit) (Rng := list Q) (200, 100)%Z
           (64 # 1, 64 # 1) (0 # 1) (1 # 1) (target sample_100x200) [1 # 4]).
  - reflexivity.
  - intros a b g0 Hab. simpl. lia.
Defined.

(** Three runs of a transform that draws one number each. *)
Lemma multiple_length_witness :
  multiple 3 (fun (d : nat) (g : list nat) =>
                match g with
                | [] => Ok (d, [])
                | x :: g' => Ok ((d + x)%nat, g')
                end) 5%nat [1; 2; 3; 4]%nat
  = Ok ([6; 7; 8]%nat, [4%nat]) /\
  length [6; 7; 8]%nat = 3%nat.
Proof.
  split; [reflexivity|].
  apply (multiple_length 3
           (fun (d : nat) (g : list nat) =>
              match g with
              | [] => Ok (d, [])
              | x :: g' => Ok ((d + x)%nat, g')
              end) 5%nat [1; 2; 3; 4]%nat [4%nat] [6; 7; 8]%nat).
  reflexivity.
Defined.

(** Two lists of two samples each, counted by the collate function. *)
Lemma flatten_counts_witness :
  Forall (fun y : list nat => length y = 2%nat) [[1; 2]; [3; 4]]%nat /\
  exists flat,
    flatten (@length nat) [[1; 2]; [3; 4]]%nat = length flat /\
    length flat = (2 * length [[1; 2]; [3; 4]]%nat)%nat /\
    (forall x, x ∈ flat <-> exists y, y ∈ [[1; 2]; [3; 4]]%nat /\ x ∈ y).
Proof.
  assert (Hall : Forall (fun y : list nat => length y = 2%nat) [[1; 2]; [3; 4]]%nat).
  { constructor; [reflexivity|]. constructor; [reflexivity|]. constructor. }
  split; [exact Hall|].
  apply (flatten_counts (@length nat) [[1; 2]; [3; 4]]%nat 2 Hall).
Defined.

(** Both keys of the two-record dataset are present. *)
Lemma dataset_BC_keys :
  forall k, k ∈ ["B"; "C"] -> k ∈ dom (images dataset_BC).
Proof.
  intros k Hk. apply elem_of_dom.
  apply elem_of_cons in Hk as [-> | Hk]; [vm_compute; eauto|].
  apply elem_of_cons in Hk as [-> | Hk]; [vm_compute; eauto|].
  apply elem_of_nil in Hk. contradiction.
Defined.

Lemma mark_evalated_marks_witness :
  snd (mark_evalated ["B"; "C"] 7 dataset_BC) = Ok tt /\
  images (fst (mark_evalated ["B"; "C"] 7 dataset_BC)) !! "B"
  = Some (mkInfo "B" "b.jpg" "test" (Some 7%Z) (info_target info_B)).
Proof.
  destruct (mark_evalated_marks ["B"; "C"] 7 dataset_BC dataset_BC_keys)
    as (Hok & Hin & _).
  split; [exact Hok|].
  apply (Hin "B" info_B).
  - apply elem_of_cons. left. reflexivity.
  - vm_compute. reflexivity.
Defined.

Lemma mark_evalated_set_only_witness :
  fst (mark_evalated ["C"; "B"; "B"] 7 dataset_BC)
  = fst (mark_evalated ["B"; "C"] 7 dataset_BC) /\
  fst (mark_evalated ["B"; "C"] 7 (fst (mark_evalated ["B"; "C"] 7 dataset_BC)))
  = fst (mark_evalated ["B"; "C"] 7 dataset_BC).
Proof.
  apply (mark_evalated_set_only ["B"; "C"] ["C"; "B"; "B"] 7 dataset_BC
           dataset_BC_keys).
  intros k. rewrite !elem_of_cons, !elem_of_nil. tauto.
Defined.

Lemma add_noise_zero_witness :
  images dataset_BC !! "B" = Some info_B /\
  exists i',
    images (fst (fst (add_noise (Rng := list Q) 0%Q 0%Q dataset_BC []))) !! "B"
    = Some i' /\
    Forall2 box_Qeq (bbox (info_target i')) (bbox (info_target info_B)).
Proof.
  split; [vm_compute; reflexivity|].
  apply (add_noise_zero (Rng := list Q) dataset_BC [] "B" info_B).
  vm_compute. reflexivity.
Defined.

Lemma unknown_augment_witness :
  a_augment args_unknown_R <> "crop" /\ a_augment args_unknown_R <> "resize" /\
  train (Pix := unit) (Rng := list R) (Enc := nat) args_unknown_R
        (mkDataset ∅ [])
  = Raise (AssertionError "unknown augmentation method rotate").
Proof.
  split; [discriminate|]. split; [discriminate|].
  destruct (unknown_augment (Pix := unit) (Rng := list R) (Enc := nat)
              args_unknown_R (mkDataset ∅ []) None sample_R)
    as (_ & Ht & _); [discriminate | discriminate |].
  exact Ht.
Defined.

Lemma train_needs_epoch_size_witness :
  epoch_size (a_loader args_resize_R) = None /\
  train (Pix := unit) (Rng := list R) (Enc := nat) args_resize_R (mkDataset ∅ [])
  = Raise TypeError /\
  sample_train (Pix := unit) (Rng := list R) (Enc := nat) args_resize_R
               (mkDataset ∅ [])
  = Ok (mkDataLoader 0 4 (ListSampler 0)) /\
  (forall l,
      sample_train (Pix := unit) (Rng := list R) (Enc := nat) args_resize_R
                   (mkDataset ∅ []) = Ok l ->
      dl_sampler l
      = ListSampler (Z.of_nat (length (train_images (mkDataset (T := R) ∅ [])))) /\
      (dl_batch_size l * image_samples (a_loader args_resize_R)
       = batch_size (a_loader args_resize_R))%Z).
Proof.
  split; [reflexivity|].
  destruct (train_needs_epoch_size (Pix := unit) (Rng := list R) (Enc := nat)
              args_resize_R (mkDataset ∅ []) eq_refl) as [_ Hb].
  destruct Hb as [Ht Hs]; [eexists; reflexivity|].
  split; [exact Ht|]. split; [reflexivity | exact Hs].
Defined.

Lemma transform_testing_plain_witness :
  a_augment args_plain_Q = "crop" /\ a_resize args_plain_Q = None /\
  py_eqb (a_scale args_plain_Q) (of_int 1) = true /\
  transform_testing (Rng := list Q) (Enc := nat) args_plain_Q None sample_100x200
  = Ok (inl sample_100x200) /\
  load_inference (Pix := unit) (Rng := list Q) (Enc := nat) "x" "x.jpg" args_plain_Q
  = Ok (imread_color (T := Q) (Rng := list Q) "x.jpg").
Proof.
  split; [reflexivity|]. split; [reflexivity|]. split; [reflexivity|].
  apply (transform_testing_plain (Rng := list Q) (Enc := nat) args_plain_Q
           sample_100x200 "x" "x.jpg"); reflexivity.
Defined.

(** The 100 x 200 record through the test-time resize to 64 x 64: the box
    is rescaled, and there is still one box for one label. *)
Lemma transform_testing_counts_witness :
  counts_match (target sample_100x200) /\
  exists d',
    transform_testing (Rng := list Q) (Enc := nat) args_resize_Q None sample_100x200
    = Ok (inl d') /\
    width (image d') = 64%Z /\ height (image d') = 64%Z /\
    bbox (target d')
    = [mkBox ((10 + 0) * (64 / 200))%Q ((20 + 0) * (64 / 100))%Q
             ((30 + 0) * (64 / 200))%Q ((40 + 0) * (64 / 100))%Q] /\
    counts_match (target d').
Proof.
  split; [reflexivity|].
  eexists. split; [reflexivity|].
  split; [reflexivity|]. split; [reflexivity|]. split; [reflexivity|].
  apply (transform_testing_counts (Rng := list Q) (Enc := nat) args_resize_Q
           sample_100x200); reflexivity.
Defined.

(** One training sample of the 100 x 200 record resized to 64 x 64. *)
Lemma transform_training_samples_witness :
  exists f xs g',
    transform_training (Pix := unit) (Rng := list R) (Enc := nat) args_resize_R = Ok f /\
    f sample_R [] = Ok (xs, g') /\
    length xs = Z.to_nat (image_samples (a_loader args_resize_R)) /\
    Forall (fun x => e_id x = d_id sample_R /\
                     lengths x = length (label (e_target x))) xs.
Proof.
  pose (f := multiple (Rng := list R) 1
               (training_run (Pix := unit) (Enc := nat) args_resize_R
                  (fun d => lift_result
                              (resize_to (Rng := list R)
                                         (dest_size_of args_resize_R) d)))).
  assert (Hf : transform_training (Pix := unit) (Rng := list R) (Enc := nat)
                 args_resize_R = Ok f) by reflexivity.
  assert (Hrun : exists xs g', f sample_R [] = Ok (xs, g')).
  { unfold f, multiple, training_run, mbind_, lift_result, resize_to, truediv.
    destruct (dest_size_of args_resize_R) as [cw ch].
    cbn [image width height sample_R nzero R_PyNum of_int].
    destruct (Req_dec_T (IZR 200) 0) as [E|_]; [exfalso; lra|].
    destruct (Req_dec_T (IZR 100) 0) as [E|_]; [exfalso; lra|].
    eexists. eexists. reflexivity. }
  destruct Hrun as (xs & g' & Hrun).
  exists f, xs, g'. split; [exact Hf|]. split; [exact Hrun|].
  exact (transform_training_samples (Pix := unit) (Rng := list R) (Enc := nat)
           args_resize_R f sample_R [] g' xs Hf Hrun).
Defined.
